(** * imu3d: the OTA feature-report exchange (services/ota.ts)

    Line numbers are those of src/unnamed/part_000, where ota.ts follows
    the position estimator.

    A shallow embedding of the WebHID "Packet Transfer Protocol" client:
    [otaSend] (the transmitter), [processFR] (the receiver) and [otaClose],
    together with the platform objects they rely on
    (strings of UTF-16 code units, [Uint8Array], [DataView],
    [TextEncoder]/[TextDecoder], [JSON.parse]).

    Conventions.
    - A JavaScript number that holds a length, an offset or a byte is a [Z].
    - A JavaScript string is the list of its UTF-16 code units.
    - An [async] function is run to completion; its settled promise is a
      [Completion]: fulfilled ([Return]), rejected ([Throw]) or never settled
      because the transport did not answer ([Pending]).
    - [console.log] calls have no effect on the results and are left out. *)

From Stdlib Require Import String Ascii DecimalString.
From Stdlib Require Import ZArith List Lia Bool.
Import ListNotations.
Open Scope list_scope.
Open Scope Z_scope.

(* ------------------------------------------------------------------ *)
(** ** JavaScript values used by the module *)

Module JS.

(** A string is its sequence of UTF-16 code units. *)
Definition jsstring := list Z.

Definition lit (s : string) : jsstring :=
  map (fun a => Z.of_N (N_of_ascii a)) (list_ascii_of_string s).

(** [s.length], [a.length] *)
Definition len {A} (l : list A) : Z := Z.of_nat (length l).

(** Relative index of [slice]: negative counts from the end, clamped. *)
Definition rel_index (n i : Z) : Z :=
  if i <? 0 then Z.max (n + i) 0 else Z.min i n.

(** [x.slice(start, end)] on strings and typed arrays. *)
Definition slice {A} (l : list A) (start stop : Z) : list A :=
  let k := rel_index (len l) start in
  let final := rel_index (len l) stop in
  firstn (Z.to_nat (Z.max (final - k) 0)) (skipn (Z.to_nat k) l).

(** [String(n)] for an integer [n]. *)
Definition String_of_int (n : Z) : jsstring :=
  lit (NilZero.string_of_int (Z.to_int n)).

(** What a [throw] carries.  [Error msg] is [new Error(msg)]; the built-in
    [RangeError], [SyntaxError] and [TypeError] have engine-specific
    messages that are not modelled. *)
Inductive Exn :=
| Error (msg : jsstring)
| RangeError
| SyntaxError
| TypeError.

(** Synchronous code that may throw. *)
Definition Res (A : Type) : Type := Exn + A.

Definition ret {A} (a : A) : Res A := inr a.
Definition throw {A} (e : Exn) : Res A := inl e.
Definition bind {A B} (m : Res A) (k : A -> Res B) : Res B :=
  match m with
  | inl e => inl e
  | inr a => k a
  end.

End JS.
Import JS.

Notation "'let*' x ':=' m 'in' k" := (JS.bind m (fun x => k))
  (at level 10, x pattern, m at level 100, k at level 200).

(* ------------------------------------------------------------------ *)
(** ** Typed arrays and views *)

Module Uint8Array.

(** [new Uint8Array(n).fill(0)] *)
Definition zeros (n : Z) : list Z := repeat 0 (Z.to_nat n).

(** [target.set(source, offset)]: a [RangeError] when the source does not
    fit, otherwise the elements at [offset ..] are overwritten. *)
Definition set (target source : list Z) (offset : Z) : Res (list Z) :=
  if len target <? offset + len source then throw RangeError
  else ret (firstn (Z.to_nat offset) target ++ source
            ++ skipn (Z.to_nat (offset + len source)) target).

(** [new Uint8Array(buffer, byteOffset, length)]: a view on part of an
    [ArrayBuffer]; a [RangeError] when [byteOffset + length] lies beyond the
    end of the buffer. *)
Definition on_buffer (buffer : list Z) (byteOffset length : Z) : Res (list Z) :=
  if len buffer <? byteOffset + length then throw RangeError
  else ret (firstn (Z.to_nat length) (skipn (Z.to_nat byteOffset) buffer)).

End Uint8Array.

(** A [DataView]: a window [byteOffset, byteOffset + byteLength) on a buffer. *)
Record DataView := mkDataView {
  buffer : list Z;
  byteOffset : Z;
  byteLength : Z
}.

Module DV.

Definition byte_at (dv : DataView) (i : Z) : Z :=
  nth (Z.to_nat (byteOffset dv + i)) (buffer dv) 0.

(** [dv.getUint8(i)] *)
Definition getUint8 (dv : DataView) (i : Z) : Res Z :=
  if byteLength dv <? i + 1 then throw RangeError
  else ret (byte_at dv i).

(** [dv.getUint16(i, true)]: little-endian. *)
Definition getUint16_le (dv : DataView) (i : Z) : Res Z :=
  if byteLength dv <? i + 2 then throw RangeError
  else ret (Z.lor (byte_at dv i) (Z.shiftl (byte_at dv (i + 1)) 8)).

(** The view returned for a whole report: offset 0 on a buffer of its own. *)
Definition of_bytes (bytes : list Z) : DataView :=
  mkDataView bytes 0 (len bytes).

(** A view lies inside its buffer. *)
Definition wf (dv : DataView) : Prop :=
  0 <= byteOffset dv /\ 0 <= byteLength dv /\
  byteOffset dv + byteLength dv <= len (buffer dv).

End DV.

(* ------------------------------------------------------------------ *)
(** ** TextEncoder / TextDecoder (UTF-8) *)

Module UTF8.

Definition in_range (lo hi x : Z) : bool := (lo <=? x) && (x <=? hi).

(** Code units to Unicode scalar values: a surrogate pair is combined, a
    lone surrogate becomes U+FFFD. *)
Fixpoint scalar_values (s : jsstring) : list Z :=
  match s with
  | [] => []
  | u :: rest =>
      if in_range 0xD800 0xDBFF u then
        match rest with
        | v :: rest' =>
            if in_range 0xDC00 0xDFFF v
            then (0x10000 + (u - 0xD800) * 0x400 + (v - 0xDC00)) :: scalar_values rest'
            else 0xFFFD :: scalar_values rest
        | [] => [0xFFFD]
        end
      else if in_range 0xDC00 0xDFFF u then 0xFFFD :: scalar_values rest
      else u :: scalar_values rest
  end.

Definition encode_scalar (cp : Z) : list Z :=
  if cp <=? 0x7F then [cp]
  else if cp <=? 0x7FF then
    [Z.lor 0xC0 (Z.shiftr cp 6); Z.lor 0x80 (Z.land cp 0x3F)]
  else if cp <=? 0xFFFF then
    [Z.lor 0xE0 (Z.shiftr cp 12); Z.lor 0x80 (Z.land (Z.shiftr cp 6) 0x3F);
     Z.lor 0x80 (Z.land cp 0x3F)]
  else
    [Z.lor 0xF0 (Z.shiftr cp 18); Z.lor 0x80 (Z.land (Z.shiftr cp 12) 0x3F);
     Z.lor 0x80 (Z.land (Z.shiftr cp 6) 0x3F); Z.lor 0x80 (Z.land cp 0x3F)].

(** [new TextEncoder().encode(s)] *)
Definition TextEncoder_encode (s : jsstring) : list Z :=
  flat_map encode_scalar (scalar_values s).

(** State of the UTF-8 decoder of the Encoding standard. *)
Record dstate := mkD {
  code_point : Z;
  bytes_seen : Z;
  bytes_needed : Z;
  lower : Z;
  upper : Z
}.

Definition d0 : dstate := mkD 0 0 0 0x80 0xBF.

(** A byte read with no sequence in progress. *)
Definition lead (b : Z) : list Z * dstate :=
  if in_range 0x00 0x7F b then ([b], d0)
  else if in_range 0xC2 0xDF b then ([], mkD (Z.land b 0x1F) 0 1 0x80 0xBF)
  else if in_range 0xE0 0xEF b then
    ([], mkD (Z.land b 0xF) 0 2
             (if b =? 0xE0 then 0xA0 else 0x80)
             (if b =? 0xED then 0x9F else 0xBF))
  else if in_range 0xF0 0xF4 b then
    ([], mkD (Z.land b 0x7) 0 3
             (if b =? 0xF0 then 0x90 else 0x80)
             (if b =? 0xF4 then 0x8F else 0xBF))
  else ([0xFFFD], d0).

Definition dstep (st : dstate) (b : Z) : list Z * dstate :=
  if bytes_needed st =? 0 then lead b
  else if negb (in_range (lower st) (upper st) b) then
    (* the sequence is abandoned and the byte is read again *)
    let (out, st') := lead b in (0xFFFD :: out, st')
  else
    let cp := Z.lor (Z.shiftl (code_point st) 6) (Z.land b 0x3F) in
    if bytes_seen st + 1 =? bytes_needed st then ([cp], d0)
    else ([], mkD cp (bytes_seen st + 1) (bytes_needed st) 0x80 0xBF).

Fixpoint drun (st : dstate) (bytes : list Z) : list Z :=
  match bytes with
  | [] => if bytes_needed st =? 0 then [] else [0xFFFD]
  | b :: rest => let (out, st') := dstep st b in out ++ drun st' rest
  end.

(** Scalar values back to code units. *)
Definition units_of_scalar (cp : Z) : jsstring :=
  if cp <? 0x10000 then [cp]
  else [0xD800 + Z.shiftr (cp - 0x10000) 10; 0xDC00 + Z.land (cp - 0x10000) 0x3FF].

(** [new TextDecoder().decode(bytes)]: UTF-8, not fatal, a leading byte
    order mark is dropped; without the [stream] option every call starts
    from the initial state. *)
Definition TextDecoder_decode (bytes : list Z) : jsstring :=
  let cps := drun d0 bytes in
  let cps' := match cps with
              | c :: rest => if c =? 0xFEFF then rest else cps
              | [] => []
              end in
  flat_map units_of_scalar cps'.

End UTF8.

(* ------------------------------------------------------------------ *)
(** ** JSON.parse *)

Module JSON.

#[local] Set Warnings "-register-all".

(** A parsed value.  A number keeps its source text: its floating-point
    value plays no role in the exchange.  An object lists its members as
    they are written. *)
Inductive value :=
| JNull
| JBool (b : bool)
| JNumber (lexeme : jsstring)
| JString (s : jsstring)
| JArray (items : list value)
| JObject (members : list (jsstring * value)).

Definition is_ws (c : Z) : bool :=
  (c =? 32) || (c =? 9) || (c =? 10) || (c =? 13).

Definition is_digit (c : Z) : bool := (48 <=? c) && (c <=? 57).

Fixpoint skip_ws (s : jsstring) : jsstring :=
  match s with
  | c :: rest => if is_ws c then skip_ws rest else s
  | [] => []
  end.

Fixpoint span_digits (s : jsstring) : jsstring * jsstring :=
  match s with
  | c :: rest =>
      if is_digit c then let (d, r) := span_digits rest in (c :: d, r)
      else ([], s)
  | [] => ([], [])
  end.

Definition hex_digit (c : Z) : option Z :=
  if is_digit c then Some (c - 48)
  else if (65 <=? c) && (c <=? 70) then Some (c - 55)
  else if (97 <=? c) && (c <=? 102) then Some (c - 87)
  else None.

Definition hex4 (a b c d : Z) : option Z :=
  match hex_digit a, hex_digit b, hex_digit c, hex_digit d with
  | Some x, Some y, Some z, Some w => Some (((x * 16 + y) * 16 + z) * 16 + w)
  | _, _, _, _ => None
  end.

(** The character after a backslash, other than [u]. *)
Definition simple_escape (e : Z) : option Z :=
  if (e =? 34) || (e =? 92) || (e =? 47) then Some e
  else if e =? 98 then Some 8
  else if e =? 102 then Some 12
  else if e =? 110 then Some 10
  else if e =? 114 then Some 13
  else if e =? 116 then Some 9
  else None.

(** The characters of a string after its opening quote, up to the closing
    one. *)
Fixpoint string_chars (s acc : jsstring) : option (jsstring * jsstring) :=
  match s with
  | [] => None
  | c :: rest =>
      if c =? 34 then Some (rev acc, rest)
      else if c <? 32 then None
      else if c =? 92 then
        match rest with
        | [] => None
        | e :: rest1 =>
            if e =? 117 then
              match rest1 with
              | h1 :: h2 :: h3 :: h4 :: rest2 =>
                  match hex4 h1 h2 h3 h4 with
                  | Some u => string_chars rest2 (u :: acc)
                  | None => None
                  end
              | _ => None
              end
            else
              match simple_escape e with
              | Some u => string_chars rest1 (u :: acc)
              | None => None
              end
        end
      else string_chars rest (c :: acc)
  end.

(** A number: an optional minus sign; a zero or a non-zero digit followed
    by digits; an optional fraction (a dot and at least one digit); an
    optional exponent (e or E, an optional sign, at least one digit).  Each
    part gives its text and what follows it. *)
Definition number_sign (s : jsstring) : jsstring * jsstring :=
  match s with
  | c :: r => if c =? 45 then ([c], r) else ([], s)
  | [] => ([], s)
  end.

Definition number_int (s : jsstring) : option (jsstring * jsstring) :=
  match s with
  | c :: r =>
      if c =? 48 then Some ([c], r)
      else if is_digit c then Some (span_digits s)
      else None
  | [] => None
  end.

Definition number_frac (s : jsstring) : option (jsstring * jsstring) :=
  match s with
  | c :: r =>
      if c =? 46 then
        match span_digits r with
        | ([], _) => None
        | (d, r') => Some (c :: d, r')
        end
      else Some ([], s)
  | [] => Some ([], s)
  end.

Definition exp_sign (s : jsstring) : jsstring * jsstring :=
  match s with
  | x :: r => if (x =? 43) || (x =? 45) then ([x], r) else ([], s)
  | [] => ([], s)
  end.

Definition number_exp (s : jsstring) : option (jsstring * jsstring) :=
  match s with
  | c :: r =>
      if (c =? 101) || (c =? 69) then
        let (esign, r1) := exp_sign r in
        match span_digits r1 with
        | ([], _) => None
        | (d, r') => Some (c :: esign ++ d, r')
        end
      else Some ([], s)
  | [] => Some ([], s)
  end.

Definition number (s : jsstring) : option (jsstring * jsstring) :=
  let (sign, s1) := number_sign s in
  match number_int s1 with
  | None => None
  | Some (ip, s2) =>
      match number_frac s2 with
      | None => None
      | Some (fp, s3) =>
          match number_exp s3 with
          | None => None
          | Some (ep, r) => Some (sign ++ ip ++ fp ++ ep, r)
          end
      end
  end.

(** [s] starts with the keyword [kw]: the rest after it. *)
Fixpoint keyword (kw s : jsstring) : option jsstring :=
  match kw, s with
  | [], _ => Some s
  | k :: kw', c :: s' => if k =? c then keyword kw' s' else None
  | _ :: _, [] => None
  end.

(** Recursive descent.  Every call consumes one unit of [fuel]; a call on
    a text of [n] characters is at most [2 * n + 1] calls deep, because a
    value opens with a bracket before its first element is read and a
    further element is read only after a comma (see
    [JSONFacts.parse_fuel_enough]). *)
Fixpoint parse_value (fuel : nat) (s : jsstring) : option (value * jsstring) :=
  match fuel with
  | O => None
  | S n =>
      match skip_ws s with
      | [] => None
      | c :: rest =>
          if c =? 34 then
            match string_chars rest [] with
            | Some (str, r) => Some (JString str, r)
            | None => None
            end
          else if c =? 91 then
            match skip_ws rest with
            | x :: r => if x =? 93 then Some (JArray [], r)
                        else parse_elements n rest []
            | [] => None
            end
          else if c =? 123 then
            match skip_ws rest with
            | x :: r => if x =? 125 then Some (JObject [], r)
                        else parse_members n rest []
            | [] => None
            end
          else if c =? 116 then
            match keyword (lit "true") (c :: rest) with
            | Some r => Some (JBool true, r)
            | None => None
            end
          else if c =? 102 then
            match keyword (lit "false") (c :: rest) with
            | Some r => Some (JBool false, r)
            | None => None
            end
          else if c =? 110 then
            match keyword (lit "null") (c :: rest) with
            | Some r => Some (JNull, r)
            | None => None
            end
          else
            match number (c :: rest) with
            | Some (lx, r) => Some (JNumber lx, r)
            | None => None
            end
      end
  end

with parse_elements (fuel : nat) (s : jsstring) (acc : list value)
  : option (value * jsstring) :=
  match fuel with
  | O => None
  | S n =>
      match parse_value n s with
      | None => None
      | Some (v, r) =>
          match skip_ws r with
          | c :: r' =>
              if c =? 44 then parse_elements n r' (v :: acc)
              else if c =? 93 then Some (JArray (rev (v :: acc)), r')
              else None
          | [] => None
          end
      end
  end

with parse_members (fuel : nat) (s : jsstring) (acc : list (jsstring * value))
  : option (value * jsstring) :=
  match fuel with
  | O => None
  | S n =>
      match skip_ws s with
      | q :: s1 =>
          if q =? 34 then
            match string_chars s1 [] with
            | None => None
            | Some (key, s2) =>
                match skip_ws s2 with
                | colon :: s3 =>
                    if colon =? 58 then
                      match parse_value n s3 with
                      | None => None
                      | Some (v, r) =>
                          match skip_ws r with
                          | c :: r' =>
                              if c =? 44 then parse_members n r' ((key, v) :: acc)
                              else if c =? 125
                                   then Some (JObject (rev ((key, v) :: acc)), r')
                              else None
                          | [] => None
                          end
                      end
                    else None
                | [] => None
                end
            end
          else None
      | [] => None
      end
  end.

Definition parse_with (fuel : nat) (text : jsstring) : option value :=
  match parse_value fuel text with
  | Some (v, r) => match skip_ws r with [] => Some v | _ :: _ => None end
  | None => None
  end.

(** [JSON.parse(text)]: the value, or a [SyntaxError]. *)
Definition parse (text : jsstring) : Res value :=
  match parse_with (2 * length text + 2) text with
  | Some v => ret v
  | None => throw SyntaxError
  end.

End JSON.

(* ------------------------------------------------------------------ *)
(** ** Localised messages *)

Record OTAStrings := mkStrings {
  noDeviceSpecified : jsstring;
  noConnectedDevice : jsstring;
  deviceNotOpened : jsstring;
  dataTooLong : jsstring;
  emptyResponse : jsstring;
  unknownMessageType : jsstring;
  errorOpeningDevice : jsstring;
  errorSendingInit : jsstring;
  errorClosingDevice : jsstring;
  errorReceivingFeatureReport : jsstring;
  errorSendingFeatureReport : jsstring
}.

Definition defaultStrings : OTAStrings := {|
  noDeviceSpecified := lit "No device specified.";
  noConnectedDevice := lit "No connected device";
  deviceNotOpened := lit "Device not opened";
  dataTooLong := lit "Data too long";
  emptyResponse := lit "Empty response";
  unknownMessageType := lit "Unknown message type: {msgType}";
  errorOpeningDevice := lit "Error opening device: {error}";
  errorSendingInit := lit "Error sending init: {error}";
  errorClosingDevice := lit "Error closing device: {error}";
  errorReceivingFeatureReport := lit "Error receiving feature report: {error}";
  errorSendingFeatureReport := lit "Error sending feature report: {error}"
|}.

(** A string is truthy when it is not empty. *)
Definition truthy (s : jsstring) : bool :=
  match s with [] => false | _ :: _ => true end.

(** [string | null] and [string | undefined]: truthy when present and not
    empty. *)
Definition truthy_opt (s : option jsstring) : bool :=
  match s with Some t => truthy t | None => false end.

(** The class [\w] of a regular expression without flags. *)
Definition is_word (c : Z) : bool :=
  ((48 <=? c) && (c <=? 57)) || ((65 <=? c) && (c <=? 90)) || (c =? 95)
  || ((97 <=? c) && (c <=? 122)).

Fixpoint lookup (vars : list (jsstring * jsstring)) (k : jsstring) : jsstring :=
  match vars with
  | [] => []
  | (k', v) :: rest => if list_eq_dec Z.eq_dec k' k then v else lookup rest k
  end.

(** The scan behind [template.replace(/\{(\w+)\}/g, ...)].  [pending] holds
    the word characters read since an opening brace, if one is open. *)
Fixpoint fmt_scan (vars : list (jsstring * jsstring)) (pending : option jsstring)
  (s : jsstring) : jsstring :=
  match s with
  | [] => match pending with None => [] | Some k => 123 :: k end
  | c :: rest =>
      match pending with
      | None =>
          if c =? 123 then fmt_scan vars (Some []) rest
          else c :: fmt_scan vars None rest
      | Some k =>
          if is_word c then fmt_scan vars (Some (k ++ [c])) rest
          else if (c =? 125) && truthy k then lookup vars k ++ fmt_scan vars None rest
          else if c =? 123 then 123 :: k ++ fmt_scan vars (Some []) rest
          else 123 :: k ++ c :: fmt_scan vars None rest
      end
  end.

(** [fmt(template, vars)]: every [{key}] is replaced by [String(vars[key] ?? '')].
    [vars] lists the own properties of the object; all of them are strings
    at the call sites. *)
Definition fmt (template : jsstring) (vars : list (jsstring * jsstring)) : jsstring :=
  fmt_scan vars None template.

(* ------------------------------------------------------------------ *)
(** ** The feature-report layout *)

Module OTA_FR.
Definition id : Z := 6.
Module write.
Definition length : Z := 244.
Definition headerLength : Z := 5.
Definition msgTypeIndex : Z := 2.
Definition lenIndex : Z := 3.
Definition maxData : Z := 244 - 5.
End write.
Module read.
Definition headerLength : Z := 6.
Definition msgTypeIndex : Z := 3.
Definition lenIndex : Z := 4.
Definition maxData : Z := 244 - 6.
End read.
End OTA_FR.

(* ------------------------------------------------------------------ *)
(** ** The transport: a HID device *)

(** A call made on the device. *)
Inductive Call :=
| SendFeatureReport (reportId : Z) (data : list Z)
| ReceiveFeatureReport (reportId : Z)
| CloseDevice.

(** The device as the module sees it.  [calls] records what was asked of
    it, the most recent call first.  The three scripts say how it will
    answer: [sendFaults] holds the outcome of the coming
    [sendFeatureReport] calls ([Some e]: rejected with a reason that prints
    as [e]; past the end of the list every write is accepted), [incoming]
    the outcome of the coming [receiveFeatureReport] calls (a reason or a
    report; past the end the device does not answer), and [closeFault] that
    of [close]. *)
Record HIDDevice := mkDevice {
  ref : Z;
  opened : bool;
  calls : list Call;
  sendFaults : list (option jsstring);
  incoming : list (jsstring + DataView);
  closeFault : option jsstring
}.

(** A settled or unsettled promise. *)
Inductive Completion (A : Type) :=
| Return (a : A)
| Throw (e : Exn)
| Pending.
Arguments Return {A} a.
Arguments Throw {A} e.
Arguments Pending {A}.

Definition settle {A} (r : Res A) : Completion A :=
  match r with inl e => Throw e | inr a => Return a end.

(** [device.sendFeatureReport(reportId, data)]: the rejection reason, if
    any, and the device afterwards. *)
Definition sendFeatureReport (dev : HIDDevice) (reportId : Z) (data : list Z)
  : option jsstring * HIDDevice :=
  let log := SendFeatureReport reportId data :: calls dev in
  match sendFaults dev with
  | [] => (None, mkDevice (ref dev) (opened dev) log [] (incoming dev) (closeFault dev))
  | r :: rest =>
      (r, mkDevice (ref dev) (opened dev) log rest (incoming dev) (closeFault dev))
  end.

(** The device after a [receiveFeatureReport(reportId)] call whose answer
    leaves [rest] still to come. *)
Definition received (dev : HIDDevice) (reportId : Z) (rest : list (jsstring + DataView))
  : HIDDevice :=
  mkDevice (ref dev) (opened dev) (ReceiveFeatureReport reportId :: calls dev)
           (sendFaults dev) rest (closeFault dev).

(** [device.close()] *)
Definition close (dev : HIDDevice) : option jsstring * HIDDevice :=
  match closeFault dev with
  | Some e =>
      (Some e, mkDevice (ref dev) (opened dev) (CloseDevice :: calls dev)
                        (sendFaults dev) (incoming dev) (closeFault dev))
  | None =>
      (None, mkDevice (ref dev) false (CloseDevice :: calls dev)
                      (sendFaults dev) (incoming dev) (closeFault dev))
  end.

(** The reports handed to [sendFeatureReport] so far, oldest first. *)
Fixpoint reports_of (log : list Call) : list (list Z) :=
  match log with
  | [] => []
  | SendFeatureReport _ data :: rest => reports_of rest ++ [data]
  | _ :: rest => reports_of rest
  end.

Definition written (dev : HIDDevice) : list (list Z) := reports_of (calls dev).

(** The number of [receiveFeatureReport] calls so far. *)
Fixpoint reads_of (log : list Call) : nat :=
  match log with
  | [] => O
  | ReceiveFeatureReport _ :: rest => S (reads_of rest)
  | _ :: rest => reads_of rest
  end.

Definition reads (dev : HIDDevice) : nat := reads_of (calls dev).

(** The module-level [ota_g]; [device] holds a reference to the attached
    device. *)
Record OtaGlobals := mkGlobals {
  hbTimeout : Z;
  device : option Z
}.

Definition ota_g : OtaGlobals := mkGlobals 9000 None.

(* ------------------------------------------------------------------ *)
(** ** processFR: the receiver *)

Record Response := mkResponse {
  error : option jsstring;
  data : jsstring
}.

(** Lines 251-260: the payload text, cut to the declared length, the
    declared length and the message type of the report [dv] just read. *)
Definition processFR_decode (dv : DataView) : Res (Z * Z * jsstring) :=
  let payloadOffset := OTA_FR.read.headerLength in
  let* payloadView :=
    Uint8Array.on_buffer (buffer dv) (byteOffset dv + payloadOffset)
                         (Z.max 0 (byteLength dv - payloadOffset)) in
  let data0 := UTF8.TextDecoder_decode payloadView in
  let* reportLength := DV.getUint16_le dv OTA_FR.read.lenIndex in
  let* msgType := DV.getUint8 dv OTA_FR.read.msgTypeIndex in
  let data1 := slice data0 0 (Z.min reportLength (len data0)) in
  ret (msgType, reportLength, data1).

(** Lines 261-286: [remaining = 0], then the [switch] on the message type.
    The new value of [remaining] and the response object afterwards. *)
Definition processFR_dispatch (STRINGS : OTAStrings) (msgType reportLength : Z)
  (data1 : jsstring) (reportResponse : Response) : Z * Response :=
  let remaining := 0 in
  if (msgType =? 0) || (msgType =? 1) then
    (Z.max 0 (reportLength - len data1),
     mkResponse (error reportResponse) (data reportResponse ++ data1))
  else if msgType =? 2 then (remaining, reportResponse)
  else if msgType =? 3 then (1, reportResponse)
  else if msgType =? 4 then
    (remaining, mkResponse (Some data1) (data reportResponse))
  else if msgType =? 5 then
    (remaining, mkResponse (Some (emptyResponse STRINGS)) (data reportResponse))
  else if msgType =? 6 then
    (remaining, mkResponse (error reportResponse) data1)
  else
    (remaining,
     mkResponse (Some (fmt (unknownMessageType STRINGS)
                           [(lit "msgType", String_of_int msgType)]))
                (data reportResponse)).

(** One pass of the [while] body on the report [dv] just read. *)
Definition processFR_frame (STRINGS : OTAStrings) (dv : DataView)
  (reportResponse : Response) : Res (Z * Response) :=
  match processFR_decode dv with
  | inl e => throw e
  | inr (msgType, reportLength, data1) =>
      ret (processFR_dispatch STRINGS msgType reportLength data1 reportResponse)
  end.

(** [while (remaining) { ... }].  [q] is what the device will answer to the
    coming reads; it is [incoming dev] throughout. *)
Fixpoint processFR_loop (STRINGS : OTAStrings) (q : list (jsstring + DataView))
  (dev : HIDDevice) (remaining : Z) (reportResponse : Response)
  : Completion Response * HIDDevice :=
  if remaining =? 0 then (Return reportResponse, dev)
  else
    match q with
    | [] => (Pending, received dev OTA_FR.id [])
    | answer :: rest =>
        let dev' := received dev OTA_FR.id rest in
        match answer with
        | inl err =>
            (Throw (Error (fmt (errorReceivingFeatureReport STRINGS)
                               [(lit "error", err)])), dev')
        | inr dv =>
            match processFR_frame STRINGS dv reportResponse with
            | inl e => (Throw e, dev')
            | inr (remaining', reportResponse') =>
                processFR_loop STRINGS rest dev' remaining' reportResponse'
            end
        end
    end.

(** After the loop: the accumulated text is parsed when it is not empty,
    then a recorded error is thrown, else the data is returned (the empty
    string when nothing was accumulated). *)
Definition processFR_finish (reportResponse : Response) : Res JSON.value :=
  let* parsed :=
    (if 0 <? len (data reportResponse) then JSON.parse (data reportResponse)
     else ret (JSON.JString (data reportResponse))) in
  if truthy_opt (error reportResponse) then
    throw (Error (match error reportResponse with Some m => m | None => [] end))
  else ret parsed.

Definition processFR (STRINGS : OTAStrings) (device : option HIDDevice)
  : Completion JSON.value * option HIDDevice :=
  match device with
  | None => (Throw (Error (noConnectedDevice STRINGS)), None)
  | Some dev =>
      if negb (opened dev) then (Throw (Error (deviceNotOpened STRINGS)), device)
      else
        match processFR_loop STRINGS (incoming dev) dev 1 (mkResponse None []) with
        | (Return reportResponse, dev') =>
            (settle (processFR_finish reportResponse), Some dev')
        | (Throw e, dev') => (Throw e, Some dev')
        | (Pending, dev') => (Pending, Some dev')
        end
  end.

(* ------------------------------------------------------------------ *)
(** ** otaSend: the transmitter, then the receiver *)

(** The header and the report built for one chunk. *)
Definition otaSend_report (uint8Array : list Z) (offset chunkIndex : Z)
  : Res (list Z) :=
  let remaining := len uint8Array - offset in
  let chunkLen := Z.min OTA_FR.write.maxData remaining in
  let msgType := if chunkIndex =? 0 then 0x00 else 0x01 in
  let featureReport := Uint8Array.zeros OTA_FR.write.length in
  let* featureReport1 :=
    Uint8Array.set featureReport
      [0x00; 0xFF; msgType; Z.land remaining 0xff;
       Z.land (Z.shiftr remaining 8) 0xff] 0 in
  Uint8Array.set featureReport1 (slice uint8Array offset (offset + chunkLen))
                 OTA_FR.write.headerLength.

(** [while (offset < uint8Array.length) { ... }].  Every pass moves [offset]
    forward by at least one byte, so [fuel] passes are enough as soon as
    [fuel] is the number of bytes left; [None] stands for a loop cut short
    by lack of fuel (see [otaSend_loop_fuel]). *)
Fixpoint otaSend_loop (STRINGS : OTAStrings) (fuel : nat) (device : option HIDDevice)
  (uint8Array : list Z) (offset chunkIndex : Z)
  : option (Completion unit * option HIDDevice) :=
  if offset <? len uint8Array then
    match fuel with
    | O => None
    | S fuel' =>
        let remaining := len uint8Array - offset in
        let chunkLen := Z.min OTA_FR.write.maxData remaining in
        match otaSend_report uint8Array offset chunkIndex with
        | inl e => Some (Throw e, device)
        | inr featureReport =>
            match device with
            | None => Some (Throw TypeError, None)
            | Some dev =>
                match sendFeatureReport dev OTA_FR.id featureReport with
                | (Some e, dev') =>
                    Some (Throw (Error (fmt (errorSendingFeatureReport STRINGS)
                                            [(lit "error", e)])), Some dev')
                | (None, dev') =>
                    otaSend_loop STRINGS fuel' (Some dev') uint8Array
                                 (offset + chunkLen) (chunkIndex + 1)
                end
            end
        end
    end
  else Some (Return tt, device).

(** Lines 309-337: encode the text and write its chunks. *)
Definition otaSend_transmit (STRINGS : OTAStrings) (device : option HIDDevice)
  (data : jsstring) : option (Completion unit * option HIDDevice) :=
  let uint8Array := UTF8.TextEncoder_encode data in
  otaSend_loop STRINGS (length uint8Array) device uint8Array 0 0.

Definition otaSend (STRINGS : OTAStrings) (device : option HIDDevice)
  (data : jsstring) : Completion JSON.value * option HIDDevice :=
  let err :=
    match device with
    | None => Some (noConnectedDevice STRINGS)
    | Some dev =>
        if negb (opened dev) then Some (deviceNotOpened STRINGS)
        else if negb (truthy data) then Some (lit "No data")
        else None
    end in
  if truthy_opt err then
    (Throw (Error (match err with Some m => m | None => [] end)), device)
  else
    match otaSend_transmit STRINGS device data with
    | None => (Pending, device)
    | Some (Return _, device') => processFR STRINGS device'
    | Some (Throw e, device') => (Throw e, device')
    | Some (Pending, device') => (Pending, device')
    end.

(* ------------------------------------------------------------------ *)
(** ** otaClose *)

Definition otaClose (STRINGS : OTAStrings) (g : OtaGlobals) (dev : option HIDDevice)
  : Completion unit * OtaGlobals * option HIDDevice :=
  match dev with
  | None => (Throw (Error (noDeviceSpecified STRINGS)), g, None)
  | Some d =>
      let g' := mkGlobals (hbTimeout g) None in
      if opened d then
        match close d with
        | (Some err, d') =>
            (Throw (Error (fmt (errorClosingDevice STRINGS) [(lit "error", err)])),
             g', Some d')
        | (None, d') => (Return tt, g', Some d')
        end
      else (Return tt, g', Some d)
  end.

(* ------------------------------------------------------------------ *)
(** ** Reading the reports back *)

(** The 16-bit little-endian length field of an outgoing report
    (bytes 3 and 4) and its message type (byte 2). *)
Definition declared_length (report : list Z) : Z :=
  Z.lor (nth 3 report 0) (Z.shiftl (nth 4 report 0) 8).

Definition message_type (report : list Z) : Z := nth 2 report 0.

(** The payload area of an outgoing report (bytes 5 to 243). *)
Definition payload_area (report : list Z) : list Z := skipn 5 report.

(** The reports handed to the device by a call that took it from [dev] to
    [dev']. *)
Definition reports_since (dev dev' : HIDDevice) : list (list Z) :=
  skipn (length (written dev)) (written dev').

(** The reports written by [otaSend(dev, data)]. *)
Definition sent_reports (STRINGS : OTAStrings) (dev : HIDDevice) (data : jsstring)
  : list (list Z) :=
  match snd (otaSend STRINGS (Some dev) data) with
  | Some dev' => reports_since dev dev'
  | None => []
  end.

(** The device after [reports] were handed to [sendFeatureReport], one
    call each. *)
Definition after_sends (dev : HIDDevice) (reports : list (list Z)) : HIDDevice :=
  mkDevice (ref dev) (opened dev)
           (rev (map (SendFeatureReport OTA_FR.id) reports) ++ calls dev)
           (skipn (length reports) (sendFaults dev)) (incoming dev) (closeFault dev).

(** The device after [n] answered reads, with [rest] still to come. *)
Definition after_reads (dev : HIDDevice) (n : nat) (rest : list (jsstring + DataView))
  : HIDDevice :=
  mkDevice (ref dev) (opened dev)
           (repeat (ReceiveFeatureReport OTA_FR.id) n ++ calls dev)
           (sendFaults dev) rest (closeFault dev).

(** An outgoing report as it comes back in a [DataView]: the incoming
    layout is the report id followed by the same header and payload. *)
Definition incoming_report (report : list Z) : DataView :=
  DV.of_bytes (OTA_FR.id :: report).

(** The device [dev], about to answer its reads with [reports]. *)
Definition answering (dev : HIDDevice) (reports : list (list Z)) : HIDDevice :=
  mkDevice (ref dev) (opened dev) (calls dev) (sendFaults dev)
           (map (fun r => inr (incoming_report r)) reports) (closeFault dev).

(** The receive loop of [processFR] run on those reports. *)
Definition reassemble (STRINGS : OTAStrings) (dev : HIDDevice)
  (reports : list (list Z)) : Completion Response * HIDDevice :=
  processFR_loop STRINGS (incoming (answering dev reports)) (answering dev reports)
                 1 (mkResponse None []).

(** A text of ASCII characters: one byte per character. *)
Definition ascii (s : jsstring) : Prop := Forall (fun c => 0 <= c <= 127) s.

(** *** The reports as the transmitter's description has them *)

(** The [k]-th chunk of at most 239 bytes. *)
Definition expected_chunk (bytes : list Z) (k : nat) : list Z :=
  firstn 239 (skipn (239 * k) bytes).

(** Header, chunk, zero padding up to 244 bytes. *)
Definition expected_layout (msgType remaining : Z) (payload : list Z) : list Z :=
  [0; 255; msgType; Z.land remaining 255; Z.land (Z.shiftr remaining 8) 255]
  ++ payload ++ repeat 0 (239 - length payload)%nat.

(** The [k]-th report: [FIRST] then [MID], declaring the bytes not yet sent. *)
Definition expected_report (bytes : list Z) (k : nat) : list Z :=
  expected_layout (if Nat.eqb k 0 then 0 else 1)
                  (len bytes - 239 * Z.of_nat k) (expected_chunk bytes k).

Definition chunk_count (bytes : list Z) : nat :=
  Z.to_nat ((len bytes + 238) / 239).

Definition expected_reports (bytes : list Z) (k j : nat) : list (list Z) :=
  map (expected_report bytes) (seq k j).

(** *** Devices and reports of the examples *)

Definition idle_device : HIDDevice := mkDevice 1 true [] [] [] None.

(** An incoming report: report id, [0x00], [0xFF], message type, declared
    length, payload text. *)
Definition device_report (msgType declared : Z) (text : string) : jsstring + DataView :=
  inr (DV.of_bytes ([OTA_FR.id; 0; 255; msgType; Z.land declared 255;
                     Z.land (Z.shiftr declared 8) 255] ++ lit text)).

(** A device that is not opened. *)
Definition closed_device : HIDDevice := mkDevice 1 false [] [] [] None.

(** An opened device that answers the coming reads with [answers]. *)
Definition scripted_device (answers : list (jsstring + DataView)) : HIDDevice :=
  mkDevice 1 true [] [] answers None.

(** An opened device whose [close] is rejected. *)
Definition stuck_device : HIDDevice :=
  mkDevice 1 true [] [] [] (Some (lit "NetworkError: Failed to close the device.")).

(** Texts of the examples: [n] times the letter a, and [n] times the
    letter e with an acute accent (U+00E9, two bytes in UTF-8). *)
Definition letters (n : Z) : jsstring := repeat 97 (Z.to_nat n).
Definition accented (n : Z) : jsstring := repeat 233 (Z.to_nat n).

(* ------------------------------------------------------------------ *)
(** ** Rejected writes *)

(** Of [n] reports to write, the number handed to a device whose coming
    writes settle as [faults] say: the writes stop at the first rejection. *)
Fixpoint handed (faults : list (option jsstring)) (n : nat) {struct n} : nat :=
  match n with
  | O => O
  | S n' =>
      match faults with
      | [] => n
      | Some _ :: _ => 1%nat
      | None :: rest => S (handed rest n')
      end
  end.

(** The reason of that first rejection, if one of the [n] writes meets it. *)
Fixpoint write_fault (faults : list (option jsstring)) (n : nat) {struct n}
  : option jsstring :=
  match n with
  | O => None
  | S n' =>
      match faults with
      | [] => None
      | Some e :: _ => Some e
      | None :: rest => write_fault rest n'
      end
  end.
(* ------------------------------------------------------------------ *)
(** ** configureOtaLocale *)

(** [Partial<OTAStrings>]: every key is absent or holds a string (a key set
    to [undefined] is not covered). *)
Record OTAOverrides := mkOverrides {
  o_noDeviceSpecified : option jsstring;
  o_noConnectedDevice : option jsstring;
  o_deviceNotOpened : option jsstring;
  o_dataTooLong : option jsstring;
  o_emptyResponse : option jsstring;
  o_unknownMessageType : option jsstring;
  o_errorOpeningDevice : option jsstring;
  o_errorSendingInit : option jsstring;
  o_errorClosingDevice : option jsstring;
  o_errorReceivingFeatureReport : option jsstring;
  o_errorSendingFeatureReport : option jsstring
}.

Definition no_overrides : OTAOverrides :=
  mkOverrides None None None None None None None None None None None.

(** One key of [{ ...STRINGS, ...overrides }]. *)
Definition spread (current : jsstring) (override : option jsstring) : jsstring :=
  match override with
  | Some s => s
  | None => current
  end.

(** [configureOtaLocale(overrides)]: the new value of [STRINGS]. *)
Definition configureOtaLocale (STRINGS : OTAStrings) (overrides : OTAOverrides)
  : OTAStrings := {|
  noDeviceSpecified := spread (noDeviceSpecified STRINGS) (o_noDeviceSpecified overrides);
  noConnectedDevice := spread (noConnectedDevice STRINGS) (o_noConnectedDevice overrides);
  deviceNotOpened := spread (deviceNotOpened STRINGS) (o_deviceNotOpened overrides);
  dataTooLong := spread (dataTooLong STRINGS) (o_dataTooLong overrides);
  emptyResponse := spread (emptyResponse STRINGS) (o_emptyResponse overrides);
  unknownMessageType :=
    spread (unknownMessageType STRINGS) (o_unknownMessageType overrides);
  errorOpeningDevice :=
    spread (errorOpeningDevice STRINGS) (o_errorOpeningDevice overrides);
  errorSendingInit := spread (errorSendingInit STRINGS) (o_errorSendingInit overrides);
  errorClosingDevice :=
    spread (errorClosingDevice STRINGS) (o_errorClosingDevice overrides);
  errorReceivingFeatureReport :=
    spread (errorReceivingFeatureReport STRINGS)
           (o_errorReceivingFeatureReport overrides);
  errorSendingFeatureReport :=
    spread (errorSendingFeatureReport STRINGS) (o_errorSendingFeatureReport overrides)
|}.

(* ------------------------------------------------------------------ *)
(** ** sendHB and otaOpen *)

(** [sendHB(device)]: the heartbeat exchange inside [try]; what [otaSend]
    throws is caught and logged. *)
Definition sendHB (STRINGS : OTAStrings) (dev : HIDDevice)
  : Completion unit * option HIDDevice :=
  match otaSend STRINGS (Some dev) (lit "hb") with
  | (Return _, d) => (Return tt, d)
  | (Throw _, d) => (Return tt, d)
  | (Pending, d) => (Pending, d)
  end.

(** [String(err)] for what the module throws: [Error.prototype.toString]
    joins the name and the message with a colon and a space, and gives the
    name alone when the message is empty.  [engine] stands for the messages
    of the built-in errors, which the engine chooses. *)
Definition error_name (e : Exn) : jsstring :=
  match e with
  | Error _ => lit "Error"
  | RangeError => lit "RangeError"
  | SyntaxError => lit "SyntaxError"
  | TypeError => lit "TypeError"
  end.

Definition error_message (engine : Exn -> jsstring) (e : Exn) : jsstring :=
  match e with
  | Error msg => msg
  | _ => engine e
  end.

Definition String_of_error (engine : Exn -> jsstring) (e : Exn) : jsstring :=
  match error_message engine e with
  | [] => error_name e
  | msg => error_name e ++ lit ": " ++ msg
  end.

(** [device.open()], settling as [fault] says: rejected with a reason that
    prints as [e], or fulfilled with the device opened. *)
Definition open (dev : HIDDevice) (fault : option jsstring)
  : option jsstring * HIDDevice :=
  match fault with
  | Some e => (Some e, dev)
  | None =>
      (None, mkDevice (ref dev) true (calls dev) (sendFaults dev) (incoming dev)
                      (closeFault dev))
  end.

(** What [otaOpen] leaves: [ota_g], the device, and the [info] property
    attached to the device object. *)
Record OpenState := mkOpenState {
  os_globals : OtaGlobals;
  os_device : option HIDDevice;
  os_info : option JSON.value
}.

(** [otaOpen(device)].  [openFault] says how [device.open()] settles if it
    is called, [g] and [info] are [ota_g] and [device.info] before the
    call. *)
Definition otaOpen (STRINGS : OTAStrings) (engine : Exn -> jsstring)
  (openFault : option jsstring) (g : OtaGlobals) (info : option JSON.value)
  (dev : option HIDDevice) : Completion JSON.value * OpenState :=
  match dev with
  | None => (Throw (Error (noDeviceSpecified STRINGS)), mkOpenState g None info)
  | Some d =>
      let (rejected, d1) := if negb (opened d) then open d openFault else (None, d) in
      match rejected with
      | Some err =>
          (Throw (Error (fmt (errorOpeningDevice STRINGS) [(lit "error", err)])),
           mkOpenState g (Some d1) info)
      | None =>
          match otaSend STRINGS (Some d1) (lit "init") with
          | (Throw err, d2) =>
              (Throw (Error (fmt (errorSendingInit STRINGS)
                                 [(lit "error", String_of_error engine err)])),
               mkOpenState g d2 info)
          | (Pending, d2) => (Pending, mkOpenState g d2 info)
          | (Return value, d2) =>
              (Return value,
               mkOpenState (mkGlobals (hbTimeout g) (Some (ref d))) d2 (Some value))
          end
      end
  end.

(** The keys of two override objects given one after the other: a key of
    the second hides the same key of the first. *)
Definition merge_key (first second : option jsstring) : option jsstring :=
  match second with
  | Some s => Some s
  | None => first
  end.

Definition merge_overrides (o1 o2 : OTAOverrides) : OTAOverrides := {|
  o_noDeviceSpecified := merge_key (o_noDeviceSpecified o1) (o_noDeviceSpecified o2);
  o_noConnectedDevice := merge_key (o_noConnectedDevice o1) (o_noConnectedDevice o2);
  o_deviceNotOpened := merge_key (o_deviceNotOpened o1) (o_deviceNotOpened o2);
  o_dataTooLong := merge_key (o_dataTooLong o1) (o_dataTooLong o2);
  o_emptyResponse := merge_key (o_emptyResponse o1) (o_emptyResponse o2);
  o_unknownMessageType :=
    merge_key (o_unknownMessageType o1) (o_unknownMessageType o2);
  o_errorOpeningDevice :=
    merge_key (o_errorOpeningDevice o1) (o_errorOpeningDevice o2);
  o_errorSendingInit := merge_key (o_errorSendingInit o1) (o_errorSendingInit o2);
  o_errorClosingDevice :=
    merge_key (o_errorClosingDevice o1) (o_errorClosingDevice o2);
  o_errorReceivingFeatureReport :=
    merge_key (o_errorReceivingFeatureReport o1) (o_errorReceivingFeatureReport o2);
  o_errorSendingFeatureReport :=
    merge_key (o_errorSendingFeatureReport o1) (o_errorSendingFeatureReport o2)
|}.

(** The override object with the one key [deviceNotOpened]. *)
Definition only_deviceNotOpened (text : jsstring) : OTAOverrides :=
  mkOverrides None None (Some text) None None None None None None None None.

(* ------------------------------------------------------------------ *)
(** * Properties *)

(** ** Lists, lengths and slices *)

Section ListFacts.
Context {A : Type}.
Implicit Types l : list A.

Lemma len_nonneg l : 0 <= len l.
Proof. unfold len. lia. Qed.

Lemma len_app l1 l2 : len (l1 ++ l2) = len l1 + len l2.
Proof. unfold len. rewrite length_app. lia. Qed.

Lemma len_cons (a : A) l : len (a :: l) = 1 + len l.
Proof. unfold len. cbn [length]. lia. Qed.

Lemma skipn_repeat (x : A) (n m : nat) : skipn n (repeat x m) = repeat x (m - n).
Proof.
  revert n. induction m as [|m IH]; intros [|n]; cbn; auto.
Qed.

Lemma slice_inside l (a b : Z) :
  0 <= a <= b -> b <= len l ->
  slice l a b = firstn (Z.to_nat (b - a)) (skipn (Z.to_nat a) l).
Proof.
  intros Ha Hb. unfold slice, rel_index.
  destruct (Z.ltb_spec a 0); [lia|].
  destruct (Z.ltb_spec b 0); [lia|].
  repeat rewrite Z.min_l by lia. rewrite Z.max_l by lia. reflexivity.
Qed.

Lemma slice_prefix l (n : Z) :
  0 <= n <= len l -> slice l 0 n = firstn (Z.to_nat n) l.
Proof.
  intros H. rewrite slice_inside by lia.
  rewrite Z.sub_0_r. reflexivity.
Qed.

End ListFacts.

(** ** The report built for a chunk *)

Lemma set_header (a b c d e : Z) :
  Uint8Array.set (Uint8Array.zeros OTA_FR.write.length) [a; b; c; d; e] 0
  = inr ([a; b; c; d; e] ++ repeat 0 239%nat).
Proof. reflexivity. Qed.

Lemma set_payload (hdr chunk : list Z) :
  length hdr = 5%nat -> (length chunk <= 239)%nat ->
  Uint8Array.set (hdr ++ repeat 0 239%nat) chunk OTA_FR.write.headerLength
  = inr (hdr ++ chunk ++ repeat 0 (239 - length chunk)%nat).
Proof.
  intros Hh Hc. unfold Uint8Array.set, OTA_FR.write.headerLength.
  rewrite len_app. unfold len at 1 2 3. rewrite Hh, repeat_length.
  destruct (Z.ltb_spec (Z.of_nat 5 + Z.of_nat 239) (5 + Z.of_nat (length chunk)));
    [lia|].
  unfold JS.ret. f_equal.
  replace (Z.to_nat 5) with (length hdr) by lia.
  rewrite firstn_app, firstn_all, Nat.sub_diag, firstn_0, app_nil_r.
  f_equal. f_equal.
  unfold len.
  replace (Z.to_nat (5 + Z.of_nat (length chunk)))
    with (length hdr + length chunk)%nat by lia.
  rewrite skipn_app.
  rewrite skipn_all2 by lia. cbn [app].
  replace (length hdr + length chunk - length hdr)%nat with (length chunk) by lia.
  apply skipn_repeat.
Qed.

Lemma expected_chunk_length (bytes : list Z) (k : nat) :
  length (expected_chunk bytes k) = Nat.min 239 (length bytes - 239 * k).
Proof.
  unfold expected_chunk. rewrite length_firstn, length_skipn. reflexivity.
Qed.

Lemma slice_chunk (bytes : list Z) (k : nat) :
  239 * Z.of_nat k < len bytes ->
  slice bytes (239 * Z.of_nat k)
        (239 * Z.of_nat k + Z.min OTA_FR.write.maxData (len bytes - 239 * Z.of_nat k))
  = expected_chunk bytes k.
Proof.
  intros H. unfold OTA_FR.write.maxData, expected_chunk.
  change (244 - 5) with 239.
  rewrite slice_inside by lia.
  replace (Z.to_nat (239 * Z.of_nat k)) with (239 * k)%nat by lia.
  set (rest := skipn (239 * k) bytes).
  assert (Hr : length rest = (length bytes - 239 * k)%nat)
    by (unfold rest; apply length_skipn).
  unfold len in *.
  destruct (Z.le_ge_cases 239 (Z.of_nat (length bytes) - 239 * Z.of_nat k)).
  - rewrite Z.min_l by lia. f_equal. lia.
  - rewrite Z.min_r by lia.
    rewrite (firstn_all2 (n := 239)) by lia.
    apply firstn_all2. lia.
Qed.

Lemma otaSend_report_expected (bytes : list Z) (k : nat) :
  239 * Z.of_nat k < len bytes ->
  otaSend_report bytes (239 * Z.of_nat k) (Z.of_nat k)
  = inr (expected_report bytes k).
Proof.
  intros H. unfold otaSend_report.
  rewrite set_header. cbn [JS.bind].
  rewrite slice_chunk by assumption.
  rewrite set_payload.
  - unfold expected_report, expected_layout.
    destruct k; reflexivity.
  - reflexivity.
  - rewrite expected_chunk_length. lia.
Qed.

(** ** The transmit loop *)

Ltac div_lia := unfold chunk_count, len in *; Z.to_euclidean_division_equations; lia.

Lemma chunk_count_done (bytes : list Z) (k : nat) :
  len bytes <= 239 * Z.of_nat k -> (chunk_count bytes - k = 0)%nat.
Proof. intros H. div_lia. Qed.

Lemma chunk_count_more (bytes : list Z) (k : nat) :
  239 * Z.of_nat k < len bytes ->
  (chunk_count bytes - k = S (chunk_count bytes - S k))%nat.
Proof. intros H. div_lia. Qed.

Lemma after_sends_nil (dev : HIDDevice) : after_sends dev [] = dev.
Proof. destruct dev; reflexivity. Qed.

Lemma after_sends_cons (dev : HIDDevice) (r : list Z) (rs : list (list Z)) :
  after_sends (snd (sendFeatureReport dev OTA_FR.id r)) rs = after_sends dev (r :: rs).
Proof.
  unfold after_sends, sendFeatureReport.
  destruct (sendFaults dev) as [|o rest]; cbn [snd ref opened calls sendFaults
    incoming closeFault map rev length skipn];
    rewrite <- app_assoc; cbn [app]; try rewrite skipn_nil; reflexivity.
Qed.

Lemma otaSend_loop_spec (STRINGS : OTAStrings) (fuel : nat) :
  forall (dev : HIDDevice) (bytes : list Z) (k : nat),
    len bytes - 239 * Z.of_nat k <= Z.of_nat fuel ->
    exists r j,
      otaSend_loop STRINGS fuel (Some dev) bytes
                   (Z.min (239 * Z.of_nat k) (len bytes)) (Z.of_nat k)
      = Some (r, Some (after_sends dev (expected_reports bytes k j)))
      /\ (j <= chunk_count bytes - k)%nat
      /\ (sendFaults dev = [] -> r = Return tt /\ j = (chunk_count bytes - k)%nat).
Proof.
  assert (Hstop : forall fuel dev bytes k,
    len bytes <= 239 * Z.of_nat k ->
    exists r j,
      otaSend_loop STRINGS fuel (Some dev) bytes
                   (Z.min (239 * Z.of_nat k) (len bytes)) (Z.of_nat k)
      = Some (r, Some (after_sends dev (expected_reports bytes k j)))
      /\ (j <= chunk_count bytes - k)%nat
      /\ (sendFaults dev = [] -> r = Return tt /\ j = (chunk_count bytes - k)%nat)).
  { intros f dev bytes k H. exists (Return tt), 0%nat.
    rewrite (chunk_count_done bytes k H).
    unfold expected_reports. cbn [seq map]. rewrite after_sends_nil.
    repeat split; auto.
    destruct f; cbn [otaSend_loop];
      destruct (Z.ltb_spec (Z.min (239 * Z.of_nat k) (len bytes)) (len bytes));
      solve [lia | reflexivity]. }
  induction fuel as [|fuel IH]; intros dev bytes k Hf.
  - apply Hstop. lia.
  - destruct (Z.le_gt_cases (len bytes) (239 * Z.of_nat k)) as [Hle|Hgt].
    { apply Hstop. exact Hle. }
    cbn [otaSend_loop].
    rewrite Z.min_l by lia.
    destruct (Z.ltb_spec (239 * Z.of_nat k) (len bytes)); [|lia].
    rewrite otaSend_report_expected by assumption.
    replace (239 * Z.of_nat k + Z.min OTA_FR.write.maxData (len bytes - 239 * Z.of_nat k))
      with (Z.min (239 * Z.of_nat (S k)) (len bytes))
      by (unfold OTA_FR.write.maxData; lia).
    replace (Z.of_nat k + 1) with (Z.of_nat (S k)) by lia.
    pose proof (after_sends_cons dev (expected_report bytes k)) as Hcons.
    rewrite (chunk_count_more bytes k Hgt).
    destruct (sendFeatureReport dev OTA_FR.id (expected_report bytes k))
      as [[e|] dev1] eqn:Hsend; cbn [snd] in Hcons.
    + exists (Throw (Error (fmt (errorSendingFeatureReport STRINGS) [(lit "error", e)]))),
             1%nat.
      unfold expected_reports. cbn [seq map].
      rewrite <- Hcons, after_sends_nil.
      split; [reflexivity|]. split; [lia|].
      intros Hnil. unfold sendFeatureReport in Hsend. rewrite Hnil in Hsend.
      discriminate.
    + destruct (IH dev1 bytes (S k)) as (r & j & Heq & Hj & Hrel); [lia|].
      exists r, (S j). rewrite Heq.
      unfold expected_reports in *. cbn [seq map]. rewrite Hcons.
      split; [reflexivity|]. split; [lia|].
      intros Hnil.
      assert (Hnil1 : sendFaults dev1 = []).
      { unfold sendFeatureReport in Hsend. rewrite Hnil in Hsend.
        inversion Hsend. reflexivity. }
      destruct (Hrel Hnil1) as [-> ->]. auto.
Qed.

(** ** What the device was asked *)

Lemma reports_of_app (l1 l2 : list Call) :
  reports_of (l1 ++ l2) = reports_of l2 ++ reports_of l1.
Proof.
  induction l1 as [|c l1 IH]; cbn [app reports_of].
  - symmetry. apply app_nil_r.
  - destruct c; rewrite IH; try reflexivity. symmetry. apply app_assoc.
Qed.

Lemma reports_of_sends (id : Z) (rs : list (list Z)) :
  reports_of (rev (map (SendFeatureReport id) rs)) = rs.
Proof.
  induction rs as [|r rs IH]; cbn [map rev]; [reflexivity|].
  rewrite reports_of_app, IH. reflexivity.
Qed.

Lemma written_after_sends (dev : HIDDevice) (rs : list (list Z)) :
  written (after_sends dev rs) = written dev ++ rs.
Proof.
  unfold written, after_sends. cbn [calls].
  rewrite reports_of_app, reports_of_sends. reflexivity.
Qed.

Lemma reports_since_after_sends (dev : HIDDevice) (rs : list (list Z)) :
  reports_since dev (after_sends dev rs) = rs.
Proof.
  unfold reports_since. rewrite written_after_sends.
  rewrite skipn_app, skipn_all, Nat.sub_diag. reflexivity.
Qed.

Lemma reads_of_app (l1 l2 : list Call) :
  reads_of (l1 ++ l2) = (reads_of l1 + reads_of l2)%nat.
Proof.
  induction l1 as [|c l1 IH]; cbn [app reads_of]; [reflexivity|].
  destruct c; rewrite IH; reflexivity.
Qed.

Lemma reads_of_repeat (id : Z) (n : nat) :
  reads_of (repeat (ReceiveFeatureReport id) n) = n.
Proof. induction n; cbn [repeat reads_of]; congruence. Qed.

Lemma reads_after_reads (dev : HIDDevice) (n : nat) rest :
  reads (after_reads dev n rest) = (n + reads dev)%nat.
Proof.
  unfold reads, after_reads. cbn [calls].
  rewrite reads_of_app, reads_of_repeat. reflexivity.
Qed.

(** The receive loop writes nothing, keeps the device open and only adds
    reads. *)
Lemma processFR_loop_device (STRINGS : OTAStrings) (q : list (jsstring + DataView)) :
  forall dev remaining resp,
    let dev' := snd (processFR_loop STRINGS q dev remaining resp) in
    written dev' = written dev /\ opened dev' = opened dev
    /\ (reads dev <= reads dev')%nat.
Proof.
  induction q as [|answer rest IH]; intros dev remaining resp; cbn zeta;
    cbn [processFR_loop]; destruct (remaining =? 0); cbn [snd]; auto.
  - unfold written, reads, received. cbn [calls reports_of reads_of opened]. auto.
  - destruct answer as [err|dv].
    + cbn [snd]. unfold written, reads, received.
      cbn [calls reports_of reads_of opened]. auto.
    + destruct (processFR_frame STRINGS dv resp) as [e|[remaining' resp']].
      * cbn [snd]. unfold written, reads, received.
        cbn [calls reports_of reads_of opened]. auto.
      * destruct (IH (received dev OTA_FR.id rest) remaining' resp') as (Hw & Ho & Hr).
        rewrite Hw, Ho. unfold written, reads, received in *.
        cbn [calls reports_of reads_of opened] in *. repeat split; auto. lia.
Qed.

Lemma processFR_device (STRINGS : OTAStrings) (dev : HIDDevice) :
  exists dev', snd (processFR STRINGS (Some dev)) = Some dev'
               /\ written dev' = written dev.
Proof.
  unfold processFR. destruct (negb (opened dev)); cbn [snd]; [eauto|].
  pose proof (processFR_loop_device STRINGS (incoming dev) dev 1 (mkResponse None []))
    as (Hw & _ & _).
  destruct (processFR_loop STRINGS (incoming dev) dev 1 (mkResponse None []))
    as [[resp|e|] dev']; cbn [snd] in *; eauto.
Qed.

(** ** The transmitter as a whole *)

Lemma len_encode_nonneg (data : jsstring) : 0 <= len (UTF8.TextEncoder_encode data).
Proof. apply len_nonneg. Qed.

Lemma otaSend_transmit_spec (STRINGS : OTAStrings) (dev : HIDDevice) (data : jsstring) :
  let bytes := UTF8.TextEncoder_encode data in
  exists r j,
    otaSend_transmit STRINGS (Some dev) data
    = Some (r, Some (after_sends dev (expected_reports bytes 0 j)))
    /\ (j <= chunk_count bytes)%nat
    /\ (sendFaults dev = [] -> r = Return tt /\ j = chunk_count bytes).
Proof.
  cbn zeta. unfold otaSend_transmit.
  set (bytes := UTF8.TextEncoder_encode data).
  destruct (otaSend_loop_spec STRINGS (length bytes) dev bytes 0) as (r & j & Heq & Hj & Hrel).
  { unfold len. lia. }
  exists r, j. rewrite Nat.sub_0_r in *.
  change (Z.of_nat 0) with 0 in Heq. change (239 * 0) with 0 in Heq.
  rewrite Z.min_l in Heq by apply len_nonneg.
  auto.
Qed.

(** The loop of the transmitter never runs out of fuel. *)
Lemma otaSend_loop_fuel (STRINGS : OTAStrings) (device : option HIDDevice)
  (data : jsstring) :
  otaSend_transmit STRINGS device data <> None.
Proof.
  destruct device as [dev|].
  - destruct (otaSend_transmit_spec STRINGS dev data) as (r & j & Heq & _).
    rewrite Heq. discriminate.
  - unfold otaSend_transmit.
    set (bytes := UTF8.TextEncoder_encode data).
    destruct (Z.le_gt_cases (len bytes) 0) as [Hle|Hgt].
    + destruct (length bytes); cbn [otaSend_loop];
        destruct (Z.ltb_spec 0 (len bytes)); try lia; discriminate.
    + destruct (length bytes) eqn:Hl; [unfold len in Hgt; lia|].
      cbn [otaSend_loop].
      destruct (Z.ltb_spec 0 (len bytes)); [|lia].
      destruct (otaSend_report bytes 0 0); discriminate.
Qed.

Lemma otaSend_guard_passed (STRINGS : OTAStrings) (dev : HIDDevice) (data : jsstring) :
  opened dev = true -> truthy data = true ->
  otaSend STRINGS (Some dev) data
  = match otaSend_transmit STRINGS (Some dev) data with
    | None => (Pending, Some dev)
    | Some (Return _, device') => processFR STRINGS device'
    | Some (Throw e, device') => (Throw e, device')
    | Some (Pending, device') => (Pending, device')
    end.
Proof.
  intros Ho Ht. unfold otaSend. rewrite Ho, Ht. reflexivity.
Qed.

Lemma sent_reports_spec (STRINGS : OTAStrings) (dev : HIDDevice) (data : jsstring) :
  opened dev = true -> truthy data = true ->
  let bytes := UTF8.TextEncoder_encode data in
  exists j,
    sent_reports STRINGS dev data = expected_reports bytes 0 j
    /\ (j <= chunk_count bytes)%nat
    /\ (sendFaults dev = [] -> j = chunk_count bytes).
Proof.
  intros Ho Ht. cbn zeta. unfold sent_reports.
  rewrite otaSend_guard_passed by assumption.
  destruct (otaSend_transmit_spec STRINGS dev data) as (r & j & Heq & Hj & Hrel).
  rewrite Heq. exists j.
  split; [|split; [exact Hj|intros H; apply Hrel; exact H]].
  destruct r as [[]|e|]; cbn [snd]; try apply reports_since_after_sends.
  destruct (processFR_device STRINGS
              (after_sends dev (expected_reports (UTF8.TextEncoder_encode data) 0 j)))
    as (dev' & Hd & Hw).
  rewrite Hd. unfold reports_since. rewrite Hw.
  apply reports_since_after_sends.
Qed.

(** ** The header of a report *)

Lemma le16 (r : Z) :
  Z.lor (Z.land r 255) (Z.shiftl (Z.land (Z.shiftr r 8) 255) 8) = r mod 65536.
Proof.
  change 255 with (Z.ones 8). change 65536 with (2 ^ 16).
  rewrite <- Z.land_ones by lia.
  apply Z.bits_inj'. intros n Hn.
  rewrite Z.lor_spec, !Z.land_spec.
  destruct (Z.lt_ge_cases n 8) as [Hlt|Hge].
  - rewrite Z.shiftl_spec_low by lia.
    rewrite !Z.testbit_ones_nonneg by lia.
    destruct (Z.ltb_spec n 8), (Z.ltb_spec n 16); try lia.
    rewrite orb_false_r. reflexivity.
  - rewrite Z.shiftl_spec, Z.land_spec, Z.shiftr_spec by lia.
    rewrite !Z.testbit_ones_nonneg by lia.
    replace (n - 8 + 8) with n by lia.
    destruct (Z.ltb_spec n 8), (Z.ltb_spec n 16), (Z.ltb_spec (n - 8) 8); try lia;
      rewrite ?andb_false_r, ?andb_true_r, ?orb_false_l; reflexivity.
Qed.

Lemma declared_length_layout (msgType remaining : Z) (payload : list Z) :
  declared_length (expected_layout msgType remaining payload) = remaining mod 65536.
Proof. unfold declared_length, expected_layout. cbn [app nth]. apply le16. Qed.

Lemma declared_length_expected (bytes : list Z) (k : nat) :
  declared_length (expected_report bytes k)
  = (len bytes - 239 * Z.of_nat k) mod 65536.
Proof. apply declared_length_layout. Qed.

Lemma message_type_expected (bytes : list Z) (k : nat) :
  message_type (expected_report bytes k) = if Nat.eqb k 0 then 0 else 1.
Proof. reflexivity. Qed.

Lemma payload_area_expected (bytes : list Z) (k : nat) :
  payload_area (expected_report bytes k)
  = expected_chunk bytes k ++ repeat 0 (239 - length (expected_chunk bytes k))%nat.
Proof. reflexivity. Qed.

Lemma expected_report_length (bytes : list Z) (k : nat) :
  length (expected_report bytes k) = 244%nat.
Proof.
  unfold expected_report, expected_layout.
  rewrite length_app, length_app, repeat_length, expected_chunk_length.
  cbn [length]. lia.
Qed.

Lemma nth_expected_reports (bytes : list Z) (j k : nat) (f : list Z) :
  nth_error (expected_reports bytes 0 j) k = Some f ->
  (k < j)%nat /\ f = expected_report bytes k.
Proof.
  unfold expected_reports. intros H.
  rewrite nth_error_map, nth_error_seq in H.
  destruct (Nat.ltb_spec k j); cbn in H; [|discriminate].
  inversion H. auto.
Qed.

Lemma chunk_starts_inside (bytes : list Z) (k : nat) :
  (k < chunk_count bytes)%nat -> 0 <= 239 * Z.of_nat k < len bytes.
Proof. intros H. div_lia. Qed.

(** Every report written by [otaSend] is the expected one for its rank. *)
Lemma sent_report_expected (STRINGS : OTAStrings) (dev : HIDDevice) (data : jsstring)
  (k : nat) (f : list Z) :
  opened dev = true -> truthy data = true ->
  nth_error (sent_reports STRINGS dev data) k = Some f ->
  f = expected_report (UTF8.TextEncoder_encode data) k
  /\ 0 <= 239 * Z.of_nat k < len (UTF8.TextEncoder_encode data).
Proof.
  intros Ho Ht Hn.
  destruct (sent_reports_spec STRINGS dev data Ho Ht) as (j & Heq & Hj & _).
  rewrite Heq in Hn. apply nth_expected_reports in Hn as [Hk ->].
  split; [reflexivity|]. apply chunk_starts_inside. lia.
Qed.

(** The payload area of the report of rank [k] starts with the bytes of the
    text from offset [239 * k] on. *)
Lemma sent_report_payload (STRINGS : OTAStrings) (dev : HIDDevice) (data : jsstring)
  (k : nat) (f : list Z) :
  opened dev = true -> truthy data = true ->
  nth_error (sent_reports STRINGS dev data) k = Some f ->
  let bytes := UTF8.TextEncoder_encode data in
  let offset := 239 * Z.of_nat k in
  let remaining := len bytes - offset in
  firstn (Z.to_nat (Z.min 239 remaining)) (payload_area f)
  = slice bytes offset (offset + Z.min 239 remaining).
Proof.
  intros Ho Ht Hn. cbn zeta.
  destruct (sent_report_expected STRINGS dev data k f Ho Ht Hn) as [-> Hk].
  set (bytes := UTF8.TextEncoder_encode data) in *.
  rewrite payload_area_expected.
  pose proof (expected_chunk_length bytes k) as Hl.
  replace (Z.to_nat (Z.min 239 (len bytes - 239 * Z.of_nat k)))
    with (length (expected_chunk bytes k)) by (unfold len in *; lia).
  rewrite firstn_app, firstn_all, Nat.sub_diag, firstn_0, app_nil_r.
  symmetry. apply (slice_chunk bytes k). lia.
Qed.

(** ** ASCII text *)

Lemma scalar_values_ascii (s : jsstring) : ascii s -> UTF8.scalar_values s = s.
Proof.
  induction 1 as [|c s Hc Hs IH]; cbn [UTF8.scalar_values]; [reflexivity|].
  unfold UTF8.in_range.
  destruct (Z.leb_spec 0xD800 c); [lia|].
  destruct (Z.leb_spec 0xDC00 c); [lia|].
  cbn [andb]. rewrite IH. reflexivity.
Qed.

Lemma encode_ascii (s : jsstring) : ascii s -> UTF8.TextEncoder_encode s = s.
Proof.
  intros H. unfold UTF8.TextEncoder_encode. rewrite scalar_values_ascii by assumption.
  induction H as [|c s Hc Hs IH]; cbn [flat_map]; [reflexivity|].
  rewrite IH. unfold UTF8.encode_scalar.
  destruct (Z.leb_spec c 0x7F); [reflexivity|lia].
Qed.

Lemma drun_ascii (bytes : list Z) : ascii bytes -> UTF8.drun UTF8.d0 bytes = bytes.
Proof.
  induction 1 as [|c s Hc Hs IH]; cbn [UTF8.drun]; [reflexivity|].
  unfold UTF8.dstep. cbn [UTF8.bytes_needed UTF8.d0 Z.eqb].
  unfold UTF8.lead, UTF8.in_range.
  destruct (Z.leb_spec 0 c); [|lia].
  destruct (Z.leb_spec c 0x7F); [|lia].
  cbn [andb app]. rewrite IH. reflexivity.
Qed.

Lemma units_ascii (s : jsstring) : ascii s -> flat_map UTF8.units_of_scalar s = s.
Proof.
  induction 1 as [|c s Hc Hs IH]; cbn [flat_map]; [reflexivity|].
  rewrite IH. unfold UTF8.units_of_scalar.
  destruct (Z.ltb_spec c 0x10000); [reflexivity|lia].
Qed.

Lemma decode_ascii (bytes : list Z) : ascii bytes -> UTF8.TextDecoder_decode bytes = bytes.
Proof.
  intros H. unfold UTF8.TextDecoder_decode. rewrite drun_ascii by assumption.
  destruct H as [|c s Hc Hs]; [reflexivity|].
  destruct (Z.eqb_spec c 0xFEFF); [lia|].
  apply units_ascii. constructor; assumption.
Qed.

Lemma ascii_app (s t : jsstring) : ascii s -> ascii t -> ascii (s ++ t).
Proof. intros Hs Ht. apply Forall_app. auto. Qed.

Lemma ascii_repeat (c : Z) (n : nat) : 0 <= c <= 127 -> ascii (repeat c n).
Proof. intros H. induction n; cbn [repeat]; constructor; auto. Qed.

Lemma ascii_firstn (n : nat) (s : jsstring) : ascii s -> ascii (firstn n s).
Proof.
  unfold ascii. intros H. revert n.
  induction H; intros [|n]; cbn [firstn]; constructor; auto.
Qed.

Lemma ascii_skipn (n : nat) (s : jsstring) : ascii s -> ascii (skipn n s).
Proof.
  unfold ascii. intros H. revert n.
  induction H; intros [|n]; cbn [skipn]; try constructor; auto.
Qed.

Lemma len_letters (n : Z) : 0 <= n -> len (letters n) = n.
Proof. intros H. unfold len, letters. rewrite repeat_length. lia. Qed.

Lemma ascii_letters (n : Z) : ascii (letters n).
Proof. apply ascii_repeat. lia. Qed.

Lemma encode_letters (n : Z) : UTF8.TextEncoder_encode (letters n) = letters n.
Proof. apply encode_ascii, ascii_letters. Qed.

Lemma truthy_len (s : jsstring) : 0 < len s -> truthy s = true.
Proof. destruct s; [cbn; lia|reflexivity]. Qed.

(** On a device that accepts every write, [otaSend] writes all the
    expected reports. *)
Lemma sent_reports_reliable (STRINGS : OTAStrings) (dev : HIDDevice) (data : jsstring) :
  opened dev = true -> truthy data = true -> sendFaults dev = [] ->
  sent_reports STRINGS dev data
  = expected_reports (UTF8.TextEncoder_encode data) 0
                     (chunk_count (UTF8.TextEncoder_encode data)).
Proof.
  intros Ho Ht Hf.
  destruct (sent_reports_spec STRINGS dev data Ho Ht) as (j & Heq & _ & Hrel).
  rewrite Heq, (Hrel Hf). reflexivity.
Qed.

Lemma expected_reports_first (bytes : list Z) :
  0 < len bytes ->
  expected_reports bytes 0 (chunk_count bytes)
  = expected_report bytes 0 :: expected_reports bytes 1 (chunk_count bytes - 1).
Proof.
  intros H. unfold expected_reports.
  pose proof (chunk_count_more bytes 0) as Hm.
  rewrite Nat.sub_0_r in Hm.
  destruct (chunk_count bytes) as [|n]; [lia|].
  replace (S n - 1)%nat with n by lia.
  cbn [seq map]. reflexivity.
Qed.

(* ------------------------------------------------------------------ *)
(** * The declared length of outgoing reports *)

(** C2 (as stated) fails: a text of 65536 bytes has 65536 bytes unsent when
    its first chunk is built, but the 16-bit field of that report holds 0. *)
Lemma declared_length_wraps :
  ~ (forall k f,
        nth_error (sent_reports defaultStrings idle_device (letters 65536)) k = Some f ->
        declared_length f
        = len (UTF8.TextEncoder_encode (letters 65536)) - 239 * Z.of_nat k).
Proof.
  intros H.
  assert (Hlen : len (UTF8.TextEncoder_encode (letters 65536)) = 65536)
    by (rewrite encode_letters; apply len_letters; lia).
  specialize (H 0%nat (expected_report (UTF8.TextEncoder_encode (letters 65536)) 0)).
  rewrite sent_reports_reliable in H.
  - rewrite expected_reports_first in H by lia.
    specialize (H eq_refl).
    rewrite declared_length_expected, Hlen in H.
    discriminate H.
  - reflexivity.
  - apply truthy_len. rewrite <- encode_letters, Hlen. lia.
  - reflexivity.
Qed.

(** C2 (amended): for every non-empty command text, the [k]-th report
    written by [otaSend] carries the bytes that start at offset [239 * k],
    and its 16-bit little-endian length field (bytes 3 and 4) holds the
    number of bytes not yet sent at that point, modulo 65536; so the field
    equals that number whenever it is at most 65535, in particular in every
    report of a text of at most 65535 encoded bytes, and it then differs
    from the length of the chunk in every report but the last. *)
Theorem otaSend_declares_remaining (STRINGS : OTAStrings) (dev : HIDDevice)
  (data : jsstring) (k : nat) (f : list Z) :
  opened dev = true -> truthy data = true ->
  nth_error (sent_reports STRINGS dev data) k = Some f ->
  let bytes := UTF8.TextEncoder_encode data in
  let offset := 239 * Z.of_nat k in
  let remaining := len bytes - offset in
  0 < remaining
  /\ firstn (Z.to_nat (Z.min 239 remaining)) (payload_area f)
     = slice bytes offset (offset + Z.min 239 remaining)
  /\ declared_length f = remaining mod 65536
  /\ (remaining <= 65535 -> declared_length f = remaining)
  /\ (239 < remaining <= 65535 -> declared_length f <> Z.min 239 remaining).
Proof.
  intros Ho Ht Hn. cbn zeta.
  destruct (sent_report_expected STRINGS dev data k f Ho Ht Hn) as [Hf Hk].
  set (bytes := UTF8.TextEncoder_encode data) in *.
  split; [lia|]. split; [|split; subst f].
  - apply (sent_report_payload STRINGS dev data k _ Ho Ht Hn).
  - apply declared_length_expected.
  - split.
    + intros Hr. rewrite declared_length_expected. apply Z.mod_small. lia.
    + intros Hr. rewrite declared_length_expected, Z.mod_small by lia. lia.
Qed.

Lemma otaSend_declares_remaining_witness :
  exists f,
    nth_error (sent_reports defaultStrings idle_device (letters 500)) 1 = Some f
    /\ declared_length f = 261.
Proof.
  exists (nth 1 (sent_reports defaultStrings idle_device (letters 500)) []).
  assert (Hn : nth_error (sent_reports defaultStrings idle_device (letters 500)) 1
               = Some (nth 1 (sent_reports defaultStrings idle_device (letters 500)) []))
    by (vm_compute; reflexivity).
  split; [exact Hn|].
  destruct (otaSend_declares_remaining defaultStrings idle_device (letters 500) 1 _
              eq_refl eq_refl Hn) as (_ & _ & _ & Hsmall & _).
  rewrite Hsmall; vm_compute; [reflexivity|discriminate].
Defined.

(** C3 (as stated) fails: the two reports of a 240-byte message declare 240
    and 1. *)
Lemma declared_length_not_fixed :
  ~ (forall f,
        In f (sent_reports defaultStrings idle_device (letters 240)) ->
        declared_length f = len (UTF8.TextEncoder_encode (letters 240))).
Proof.
  intros H.
  assert (Hin : In (nth 1 (sent_reports defaultStrings idle_device (letters 240)) [])
                   (sent_reports defaultStrings idle_device (letters 240)))
    by (vm_compute; right; left; reflexivity).
  apply H in Hin. vm_compute in Hin. discriminate Hin.
Qed.

(** C3 (amended): for every outgoing message of at most 65535 encoded
    bytes, the report of rank [k] declares the full encoded length minus
    [239 * k]: the first report, and only the first, declares the full
    length, and no two reports of one message declare the same length. *)
Theorem otaSend_declared_length_decreases (STRINGS : OTAStrings) (dev : HIDDevice)
  (data : jsstring) :
  opened dev = true -> truthy data = true ->
  len (UTF8.TextEncoder_encode data) <= 65535 ->
  let total := len (UTF8.TextEncoder_encode data) in
  let rs := sent_reports STRINGS dev data in
  (forall k f, nth_error rs k = Some f ->
               declared_length f = total - 239 * Z.of_nat k
               /\ (declared_length f = total <-> k = 0%nat))
  /\ (forall k1 k2 f1 f2,
         nth_error rs k1 = Some f1 -> nth_error rs k2 = Some f2 ->
         declared_length f1 = declared_length f2 -> k1 = k2).
Proof.
  intros Ho Ht Hlen. cbn zeta.
  assert (Hd : forall k f,
             nth_error (sent_reports STRINGS dev data) k = Some f ->
             declared_length f = len (UTF8.TextEncoder_encode data) - 239 * Z.of_nat k).
  { intros k f Hn.
    destruct (sent_report_expected STRINGS dev data k f Ho Ht Hn) as [-> Hk].
    rewrite declared_length_expected. apply Z.mod_small. lia. }
  split.
  - intros k f Hn. rewrite (Hd k f Hn). split; [reflexivity|]. lia.
  - intros k1 k2 f1 f2 H1 H2 Heq.
    rewrite (Hd k1 f1 H1), (Hd k2 f2 H2) in Heq. lia.
Qed.

Lemma otaSend_declared_length_decreases_witness :
  map declared_length (sent_reports defaultStrings idle_device (letters 500))
  = [500; 261; 22]
  /\ forall k f,
       nth_error (sent_reports defaultStrings idle_device (letters 500)) k = Some f ->
       declared_length f = len (UTF8.TextEncoder_encode (letters 500)) - 239 * Z.of_nat k
       /\ (declared_length f = len (UTF8.TextEncoder_encode (letters 500)) <-> k = 0%nat).
Proof.
  split; [vm_compute; reflexivity|].
  refine (proj1 (otaSend_declared_length_decreases defaultStrings idle_device
                   (letters 500) eq_refl eq_refl _)).
  rewrite encode_letters, len_letters; lia.
Defined.

(* ------------------------------------------------------------------ *)
(** * The receiver *)

(** ** Decoding a report *)

(** A report of six bytes or more, in a view of its own. *)
Lemma processFR_decode_of_bytes (i a b ty lo hi : Z) (payload : list Z) :
  processFR_decode (DV.of_bytes (i :: a :: b :: ty :: lo :: hi :: payload))
  = inr (ty, Z.lor lo (Z.shiftl hi 8),
         slice (UTF8.TextDecoder_decode payload) 0
               (Z.min (Z.lor lo (Z.shiftl hi 8))
                      (len (UTF8.TextDecoder_decode payload)))).
Proof.
  unfold processFR_decode, DV.of_bytes, Uint8Array.on_buffer,
    DV.getUint16_le, DV.getUint8, DV.byte_at,
    OTA_FR.read.headerLength, OTA_FR.read.lenIndex, OTA_FR.read.msgTypeIndex.
  cbn [buffer byteOffset byteLength].
  rewrite !len_cons.
  pose proof (len_nonneg payload) as Hp.
  destruct (Z.ltb_spec (1 + (1 + (1 + (1 + (1 + (1 + len payload))))))
              (0 + 6 + Z.max 0 (1 + (1 + (1 + (1 + (1 + (1 + len payload))))) - 6)));
    [lia|].
  destruct (Z.ltb_spec (1 + (1 + (1 + (1 + (1 + (1 + len payload)))))) (4 + 2)); [lia|].
  destruct (Z.ltb_spec (1 + (1 + (1 + (1 + (1 + (1 + len payload)))))) (3 + 1)); [lia|].
  cbn [JS.bind JS.ret].
  change (Z.to_nat (0 + 6)) with 6%nat. change (Z.to_nat (0 + 4)) with 4%nat.
  change (Z.to_nat (0 + (4 + 1))) with 5%nat. change (Z.to_nat (0 + 3)) with 3%nat.
  cbn [skipn nth].
  replace (Z.to_nat (Z.max 0 (1 + (1 + (1 + (1 + (1 + (1 + len payload))))) - 6)))
    with (length payload) by (unfold len; lia).
  rewrite firstn_all. reflexivity.
Qed.

(** A view of six bytes or more inside its buffer is decoded without a
    throw; its message type is byte 3 and its declared length bytes 4-5. *)
Lemma processFR_decode_wf (dv : DataView) :
  DV.wf dv -> 6 <= byteLength dv ->
  exists data1,
    processFR_decode dv
    = inr (DV.byte_at dv 3,
           Z.lor (DV.byte_at dv 4) (Z.shiftl (DV.byte_at dv 5) 8), data1).
Proof.
  intros (Ho & Hl & Hb) H6.
  unfold processFR_decode, Uint8Array.on_buffer, DV.getUint16_le, DV.getUint8,
    OTA_FR.read.headerLength, OTA_FR.read.lenIndex, OTA_FR.read.msgTypeIndex.
  destruct (Z.ltb_spec (len (buffer dv))
              (byteOffset dv + 6 + Z.max 0 (byteLength dv - 6))); [lia|].
  destruct (Z.ltb_spec (byteLength dv) (4 + 2)); [lia|].
  destruct (Z.ltb_spec (byteLength dv) (3 + 1)); [lia|].
  cbn [JS.bind JS.ret]. eexists. reflexivity.
Qed.

(** A view shorter than six bytes makes decoding throw. *)
Lemma processFR_decode_short (dv : DataView) :
  byteLength dv < 6 -> processFR_decode dv = inl RangeError.
Proof.
  intros H.
  unfold processFR_decode, Uint8Array.on_buffer, DV.getUint16_le,
    OTA_FR.read.lenIndex.
  destruct (len (buffer dv) <?
            byteOffset dv + OTA_FR.read.headerLength
            + Z.max 0 (byteLength dv - OTA_FR.read.headerLength));
    [reflexivity|].
  cbn [JS.bind JS.ret].
  destruct (Z.ltb_spec (byteLength dv) (4 + 2)); [reflexivity|lia].
Qed.

(** ** The reports of the transmitter, read back *)

Lemma expected_chunk_ascii (bytes : list Z) (k : nat) :
  ascii bytes -> ascii (expected_chunk bytes k).
Proof. intros H. apply ascii_firstn, ascii_skipn, H. Qed.

Lemma processFR_frame_expected (STRINGS : OTAStrings) (bytes : list Z) (k : nat)
  (resp : Response) :
  ascii bytes ->
  let declared := (len bytes - 239 * Z.of_nat k) mod 65536 in
  let data1 := firstn (Z.to_nat (Z.min declared 239))
                      (payload_area (expected_report bytes k)) in
  processFR_frame STRINGS (incoming_report (expected_report bytes k)) resp
  = inr (Z.max 0 (declared - len data1),
         mkResponse (error resp) (data resp ++ data1)).
Proof.
  intros Ha. cbn zeta.
  pose proof (expected_chunk_length bytes k) as Hcl.
  assert (Hpl : len (payload_area (expected_report bytes k)) = 239).
  { rewrite payload_area_expected. rewrite len_app. unfold len.
    rewrite repeat_length. lia. }
  assert (Hpa : ascii (payload_area (expected_report bytes k))).
  { rewrite payload_area_expected. apply ascii_app.
    - apply expected_chunk_ascii, Ha.
    - apply ascii_repeat. lia. }
  unfold processFR_frame, incoming_report.
  change (OTA_FR.id :: expected_report bytes k)
    with (OTA_FR.id :: 0 :: 255 :: (if Nat.eqb k 0 then 0 else 1)
            :: Z.land (len bytes - 239 * Z.of_nat k) 255
            :: Z.land (Z.shiftr (len bytes - 239 * Z.of_nat k) 8) 255
            :: payload_area (expected_report bytes k)).
  rewrite processFR_decode_of_bytes.
  rewrite le16, decode_ascii, Hpl by assumption.
  assert (Hd : 0 <= (len bytes - 239 * Z.of_nat k) mod 65536 < 65536)
    by (apply Z.mod_pos_bound; lia).
  rewrite slice_prefix by lia.
  unfold JS.ret, processFR_dispatch.
  destruct k; reflexivity.
Qed.

Lemma processFR_loop_zero (STRINGS : OTAStrings) q dev resp :
  processFR_loop STRINGS q dev 0 resp = (Return resp, dev).
Proof. destruct q; reflexivity. Qed.

Lemma after_reads_received (dev : HIDDevice) (n : nat) rest rest' :
  after_reads (received dev OTA_FR.id rest') n rest = after_reads dev (S n) rest.
Proof.
  unfold after_reads, received. cbn [ref opened calls sendFaults closeFault].
  f_equal. cbn [repeat]. rewrite repeat_cons, <- app_assoc. reflexivity.
Qed.

(** With at most 65535 bytes of ASCII text, the loop reads the reports
    from rank [k] on, appends their chunks and stops after the last one. *)
Lemma processFR_loop_expected (STRINGS : OTAStrings) (bytes : list Z) :
  ascii bytes -> len bytes <= 65535 ->
  forall (m k : nat) dev remaining resp more,
    (chunk_count bytes - k = m)%nat -> 239 * Z.of_nat k < len bytes ->
    remaining <> 0 ->
    processFR_loop STRINGS
      (map (fun r => inr (incoming_report r)) (expected_reports bytes k m) ++ more)
      dev remaining resp
    = (Return (mkResponse (error resp) (data resp ++ skipn (239 * k) bytes)),
       after_reads dev m more).
Proof.
  intros Ha Hlen.
  induction m as [|m IH]; intros k dev remaining resp more Hm Hk Hrem.
  { rewrite (chunk_count_more bytes k Hk) in Hm. discriminate. }
  unfold expected_reports. cbn [seq map app processFR_loop].
  destruct (Z.eqb_spec remaining 0) as [|_]; [contradiction|].
  rewrite processFR_frame_expected by assumption.
  rewrite Z.mod_small by lia.
  pose proof (expected_chunk_length bytes k) as Hcl.
  rewrite payload_area_expected.
  replace (Z.to_nat (Z.min (len bytes - 239 * Z.of_nat k) 239))
    with (length (expected_chunk bytes k)) by (unfold len in *; lia).
  rewrite firstn_app, firstn_all, Nat.sub_diag, firstn_0, app_nil_r.
  rewrite (chunk_count_more bytes k Hk) in Hm. injection Hm as Hm.
  fold (expected_reports bytes (S k) m).
  destruct (Z.le_gt_cases (len bytes) (239 * Z.of_nat (S k))) as [Hlast|Hmore].
  - (* the last chunk *)
    rewrite (chunk_count_done bytes (S k) Hlast) in Hm. subst m.
    replace (Z.max 0 (len bytes - 239 * Z.of_nat k - len (expected_chunk bytes k)))
      with 0 by (unfold len in *; lia).
    cbn [expected_reports seq map app].
    rewrite processFR_loop_zero.
    unfold after_reads, received.
    cbn [ref opened calls sendFaults closeFault repeat app].
    do 4 f_equal. unfold expected_chunk.
    apply firstn_all2. rewrite length_skipn. unfold len in *. lia.
  - rewrite IH; [|exact Hm|exact Hmore|unfold len in *; lia].
    cbn [error data]. rewrite <- app_assoc.
    unfold expected_chunk.
    replace (239 * S k)%nat with (239 + 239 * k)%nat by lia.
    rewrite <- skipn_skipn, firstn_skipn, after_reads_received.
    reflexivity.
Qed.

(* ------------------------------------------------------------------ *)
(** * Chunking round trip *)

Lemma reassemble_unfold (STRINGS : OTAStrings) (dev : HIDDevice) (rs : list (list Z)) :
  reassemble STRINGS dev rs
  = processFR_loop STRINGS (map (fun r => inr (incoming_report r)) rs ++ [])
                   (answering dev rs) 1 (mkResponse None []).
Proof. unfold reassemble, answering. cbn [incoming]. rewrite app_nil_r. reflexivity. Qed.

Lemma len_accented (n : Z) :
  0 <= n -> len (UTF8.TextEncoder_encode (accented n)) = 2 * n.
Proof.
  intros H. unfold accented, UTF8.TextEncoder_encode, len.
  replace n with (Z.of_nat (Z.to_nat n)) at 2 by lia.
  induction (Z.to_nat n) as [|m IH]; [reflexivity|].
  cbn [repeat UTF8.scalar_values]. 
  change (UTF8.in_range 55296 56319 233) with false.
  change (UTF8.in_range 56320 57343 233) with false.
  cbn [flat_map]. rewrite length_app. 
  change (length (UTF8.encode_scalar 233)) with 2%nat. lia.
Qed.

(** A text of exactly 65536 ASCII characters: the first report declares
    0, so the receive loop stops after it with nothing kept. *)
Lemma reassemble_65536 (STRINGS : OTAStrings) (sender receiver : HIDDevice)
  (text : jsstring) :
  opened sender = true -> sendFaults sender = [] ->
  ascii text -> len text = 65536 ->
  fst (reassemble STRINGS receiver (sent_reports STRINGS sender text))
  = Return (mkResponse None []).
Proof.
  intros Ho Hf Ha Hlen.
  rewrite sent_reports_reliable; [|assumption|apply truthy_len; lia|assumption].
  rewrite (encode_ascii text Ha), expected_reports_first by lia.
  unfold reassemble, answering. cbn [incoming map processFR_loop Z.eqb].
  rewrite processFR_frame_expected by assumption.
  rewrite Hlen.
  change ((65536 - 239 * Z.of_nat 0) mod 65536) with 0.
  change (Z.to_nat (Z.min 0 239)) with 0%nat.
  cbn [firstn]. change (Z.max 0 (0 - len [])) with 0.
  rewrite processFR_loop_zero. reflexivity.
Qed.

(** C1 (as stated) fails on a text with a character outside ASCII and on a
    text of more than 65535 bytes: the letter e with an acute accent comes
    back followed by a NUL character, and 65536 letters come back as the
    empty text. *)
Lemma round_trip_fails :
  fst (reassemble defaultStrings idle_device
         (sent_reports defaultStrings idle_device (accented 1)))
  = Return (mkResponse None [233; 0])
  /\ [233; 0] <> accented 1
  /\ fst (reassemble defaultStrings idle_device
            (sent_reports defaultStrings idle_device (letters 65536)))
     = Return (mkResponse None [])
  /\ [] <> letters 65536.
Proof.
  split; [vm_compute; reflexivity|].
  split; [discriminate|].
  split.
  - apply reassemble_65536.
    + reflexivity.
    + reflexivity.
    + apply ascii_letters.
    + apply len_letters. lia.
  - intros H. apply (f_equal len) in H. rewrite len_letters in H by lia.
    discriminate H.
Qed.

(** C1 (amended): for every ASCII text of 1 to 65535 characters, the
    reports written by [otaSend] (chunks of at most 239 bytes, each
    declaring the bytes not yet sent), handed back to the receive loop of
    [processFR], are read one by one until the last and leave exactly the
    original text in the response, with no error recorded. *)
Theorem chunking_round_trip (STRINGS : OTAStrings) (sender receiver : HIDDevice)
  (text : jsstring) :
  opened sender = true -> sendFaults sender = [] ->
  ascii text -> 0 < len text <= 65535 ->
  let rs := sent_reports STRINGS sender text in
  (forall k f, nth_error rs k = Some f ->
               firstn (Z.to_nat (Z.min 239 (len text - 239 * Z.of_nat k))) (payload_area f)
               = slice text (239 * Z.of_nat k)
                       (239 * Z.of_nat k + Z.min 239 (len text - 239 * Z.of_nat k)))
  /\ reassemble STRINGS receiver rs
     = (Return (mkResponse None text), after_reads receiver (length rs) []).
Proof.
  intros Ho Hf Ha Hlen. cbn zeta.
  assert (Ht : truthy text = true) by (apply truthy_len; lia).
  split.
  - intros k f Hn.
    pose proof (sent_report_payload STRINGS sender text k f Ho Ht Hn) as Hp.
    rewrite (encode_ascii text Ha) in Hp. exact Hp.
  - rewrite sent_reports_reliable by assumption.
    rewrite (encode_ascii text Ha).
    rewrite reassemble_unfold.
    rewrite (processFR_loop_expected STRINGS text Ha) by (try lia; discriminate).
    unfold expected_reports. rewrite length_map, length_seq.
    cbn [error data skipn app Nat.mul]. reflexivity.
Qed.

Lemma chunking_round_trip_witness :
  reassemble defaultStrings idle_device
             (sent_reports defaultStrings idle_device (letters 500))
  = (Return (mkResponse None (letters 500)),
     after_reads idle_device
       (length (sent_reports defaultStrings idle_device (letters 500))) []).
Proof.
  refine (proj2 (chunking_round_trip defaultStrings idle_device idle_device
                   (letters 500) eq_refl eq_refl (ascii_letters 500) _)).
  rewrite len_letters; lia.
Defined.

(* ------------------------------------------------------------------ *)
(** * A message of 500 bytes *)

(** C4 (as stated) fails on a text of 500 bytes that is not ASCII: 250
    accented letters are sent in three reports, and the receiver, fed these
    three reports, stops with 262 characters, among them two replacement
    characters and eleven NUL characters, not with the 500 bytes or the 250
    characters of the text. *)
Lemma accented_text_not_recovered :
  len (UTF8.TextEncoder_encode (accented 250)) = 500
  /\ fst (reassemble defaultStrings idle_device
            (sent_reports defaultStrings idle_device (accented 250)))
     = Return (mkResponse None
                 (accented 119 ++ [65533; 65533] ++ accented 130 ++ repeat 0 11%nat))
  /\ len (accented 119 ++ [65533; 65533] ++ accented 130 ++ repeat 0 11%nat) = 262.
Proof. vm_compute. repeat split; reflexivity. Qed.

Lemma slice_500 (bytes : list Z) (k : nat) :
  len bytes = 500 -> (k < 3)%nat ->
  expected_chunk bytes k
  = slice bytes (239 * Z.of_nat k) (Z.min (239 * Z.of_nat k + 239) 500)
  /\ len (expected_chunk bytes k) = Z.min 239 (500 - 239 * Z.of_nat k).
Proof.
  intros Hlen Hk. split.
  - rewrite <- (slice_chunk bytes k) by lia. f_equal.
    unfold OTA_FR.write.maxData. lia.
  - pose proof (expected_chunk_length bytes k). unfold len in *. lia.
Qed.

(** C4 (amended): sending a text whose encoding has exactly 500 bytes to a
    device that accepts the writes produces exactly three reports, of types
    FIRST, MID, MID, declaring 500, 261 and 22 bytes and carrying chunks of
    239, 239 and 22 bytes; when the text is ASCII, the receiver fed these
    three reports accumulates exactly the 500 characters of the text and
    leaves its loop after the third read. *)
Theorem otaSend_500_bytes (STRINGS : OTAStrings) (sender receiver : HIDDevice)
  (text : jsstring) :
  opened sender = true -> sendFaults sender = [] ->
  len (UTF8.TextEncoder_encode text) = 500 ->
  let bytes := UTF8.TextEncoder_encode text in
  let rs := sent_reports STRINGS sender text in
  rs = [expected_layout 0 500 (slice bytes 0 239);
        expected_layout 1 261 (slice bytes 239 478);
        expected_layout 1 22 (slice bytes 478 500)]
  /\ map message_type rs = [0; 1; 1]
  /\ map declared_length rs = [500; 261; 22]
  /\ map len [slice bytes 0 239; slice bytes 239 478; slice bytes 478 500]
     = [239; 239; 22]
  /\ (ascii text ->
      reassemble STRINGS receiver rs
      = (Return (mkResponse None text), after_reads receiver 3 [])
      /\ len text = 500).
Proof.
  intros Ho Hf Hlen. cbn zeta.
  assert (Ht : truthy text = true).
  { destruct text; [discriminate Hlen|reflexivity]. }
  rewrite sent_reports_reliable by assumption.
  set (bytes := UTF8.TextEncoder_encode text) in *.
  assert (Hc : chunk_count bytes = 3%nat)
    by (unfold chunk_count; rewrite Hlen; reflexivity).
  rewrite Hc. unfold expected_reports. cbn [seq map].
  destruct (slice_500 bytes 0 Hlen) as [H0 L0]; [lia|].
  destruct (slice_500 bytes 1 Hlen) as [H1 L1]; [lia|].
  destruct (slice_500 bytes 2 Hlen) as [H2 L2]; [lia|].
  change (expected_chunk bytes 0 = slice bytes 0 239) in H0.
  change (expected_chunk bytes 1 = slice bytes 239 478) in H1.
  change (expected_chunk bytes 2 = slice bytes 478 500) in H2.
  unfold expected_report. rewrite Hlen, H0, H1, H2.
  change (500 - 239 * Z.of_nat 0) with 500.
  change (500 - 239 * Z.of_nat 1) with 261.
  change (500 - 239 * Z.of_nat 2) with 22.
  cbn [Nat.eqb].
  split; [reflexivity|]. split; [reflexivity|].
  split; [rewrite !declared_length_layout; reflexivity|].
  split; [rewrite <- H0, <- H1, <- H2; cbn [map]; rewrite L0, L1, L2; reflexivity|].
  intros Ha.
  assert (Hb : bytes = text) by (apply encode_ascii, Ha).
  pose proof (processFR_loop_expected STRINGS bytes) as Hloop.
  rewrite Hb in *.
  split; [|exact Hlen].
  rewrite reassemble_unfold.
  specialize (Hloop Ha ltac:(lia) 3%nat 0%nat).
  unfold expected_reports, expected_report in Hloop. cbn [seq map Nat.eqb] in Hloop.
  rewrite Hlen, H0, H1, H2 in Hloop.
  change (500 - 239 * Z.of_nat 0) with 500 in Hloop.
  change (500 - 239 * Z.of_nat 1) with 261 in Hloop.
  change (500 - 239 * Z.of_nat 2) with 22 in Hloop.
  rewrite Hloop; [reflexivity|lia|lia|discriminate].
Qed.

Lemma otaSend_500_bytes_witness :
  map message_type (sent_reports defaultStrings idle_device (letters 500)) = [0; 1; 1]
  /\ reassemble defaultStrings idle_device
                (sent_reports defaultStrings idle_device (letters 500))
     = (Return (mkResponse None (letters 500)), after_reads idle_device 3 []).
Proof.
  assert (Hlen : len (UTF8.TextEncoder_encode (letters 500)) = 500)
    by (vm_compute; reflexivity).
  destruct (otaSend_500_bytes defaultStrings idle_device idle_device (letters 500)
              eq_refl eq_refl Hlen) as (_ & Hty & _ & _ & Hrx).
  split; [exact Hty|].
  exact (proj1 (Hrx (ascii_letters 500))).
Defined.

(* ------------------------------------------------------------------ *)
(** * JSON.parse: the fuel is enough *)

Module JSONFacts.
Import JSON.

Lemma skip_ws_length (s : jsstring) : (length (skip_ws s) <= length s)%nat.
Proof.
  induction s as [|c s IH]; cbn [skip_ws length]; [lia|].
  destruct (is_ws c); cbn [length]; lia.
Qed.

Lemma span_digits_length (s : jsstring) :
  (length (snd (span_digits s)) <= length s)%nat.
Proof.
  induction s as [|c s IH]; cbn [span_digits length snd]; [lia|].
  destruct (is_digit c); [|cbn [snd length]; lia].
  destruct (span_digits s) as [d r]. cbn [snd] in *. lia.
Qed.

Lemma string_chars_length (s acc str r : jsstring) :
  string_chars s acc = Some (str, r) -> (length r < length s)%nat.
Proof.
  remember (length s) as n eqn:Hn. revert s acc Hn.
  induction n as [n IH] using lt_wf_ind. intros s acc Hn H. subst n.
  destruct s as [|c rest]; [discriminate|]. cbn [string_chars] in H.
  destruct (c =? 34); [inversion H; subst; cbn [length]; lia|].
  destruct (c <? 32); [discriminate|].
  destruct (c =? 92).
  - destruct rest as [|e rest1]; [discriminate|].
    destruct (e =? 117).
    + destruct rest1 as [|h1 [|h2 [|h3 [|h4 rest2]]]]; try discriminate.
      destruct (hex4 h1 h2 h3 h4); [|discriminate].
      apply (IH (length rest2)) in H; cbn [length] in *; lia.
    + destruct (simple_escape e); [|discriminate].
      apply (IH (length rest1)) in H; cbn [length] in *; lia.
  - apply (IH (length rest)) in H; cbn [length] in *; lia.
Qed.

Lemma keyword_length (kw s r : jsstring) :
  keyword kw s = Some r -> (length r + length kw = length s)%nat.
Proof.
  revert s. induction kw as [|k kw IH]; intros s H; cbn [keyword] in H.
  - inversion H. cbn [length]. lia.
  - destruct s as [|c s]; [discriminate|].
    destruct (k =? c); [|discriminate].
    apply IH in H. cbn [length]. lia.
Qed.

Lemma number_sign_length (s : jsstring) :
  (length (snd (number_sign s)) <= length s)%nat.
Proof.
  destruct s as [|c r]; cbn [number_sign snd length]; [lia|].
  destruct (c =? 45); cbn [snd length]; lia.
Qed.

Lemma number_int_length (s ip r : jsstring) :
  number_int s = Some (ip, r) -> (length r < length s)%nat.
Proof.
  destruct s as [|c r0]; cbn [number_int]; [discriminate|].
  destruct (c =? 48); [intros H; inversion H; subst; cbn [length]; lia|].
  destruct (is_digit c) eqn:Hd; [|discriminate].
  cbn [span_digits]. rewrite Hd.
  pose proof (span_digits_length r0) as Hl.
  destruct (span_digits r0) as [d r1]. intros H. inversion H; subst.
  cbn [snd length] in *. lia.
Qed.

Lemma number_frac_length (s fp r : jsstring) :
  number_frac s = Some (fp, r) -> (length r <= length s)%nat.
Proof.
  destruct s as [|c r0]; cbn [number_frac]; [intros H; inversion H; subst; lia|].
  destruct (c =? 46); [|intros H; inversion H; subst; lia].
  pose proof (span_digits_length r0) as Hl.
  destruct (span_digits r0) as [[|d0 d] r1]; [discriminate|].
  intros H. inversion H; subst. cbn [snd length] in *. lia.
Qed.

Lemma number_exp_length (s ep r : jsstring) :
  number_exp s = Some (ep, r) -> (length r <= length s)%nat.
Proof.
  destruct s as [|c r0]; cbn [number_exp]; [intros H; inversion H; subst; lia|].
  destruct ((c =? 101) || (c =? 69)); [|intros H; inversion H; subst; lia].
  assert (Hes : (length (snd (exp_sign r0)) <= length r0)%nat).
  { destruct r0 as [|x r']; cbn [exp_sign snd length]; [lia|].
    destruct ((x =? 43) || (x =? 45)); cbn [snd length]; lia. }
  destruct (exp_sign r0) as [esign r1].
  cbn [snd] in Hes.
  pose proof (span_digits_length r1) as Hl.
  destruct (span_digits r1) as [[|d0 d] r2]; [discriminate|].
  intros H. inversion H; subst. cbn [snd length] in *. lia.
Qed.

Lemma number_length (s lx r : jsstring) :
  number s = Some (lx, r) -> (length r < length s)%nat.
Proof.
  unfold number.
  pose proof (number_sign_length s) as Hs.
  destruct (number_sign s) as [sign s1]. cbn [snd] in Hs.
  destruct (number_int s1) as [[ip s2]|] eqn:Hi; [|discriminate].
  apply number_int_length in Hi.
  destruct (number_frac s2) as [[fp s3]|] eqn:Hf; [|discriminate].
  apply number_frac_length in Hf.
  destruct (number_exp s3) as [[ep r0]|] eqn:He; [|discriminate].
  apply number_exp_length in He.
  intros H. inversion H; subst. lia.
Qed.

(** A successful call consumes at least one character. *)
Lemma parse_consumes (n : nat) :
  (forall s v r, parse_value n s = Some (v, r) -> (length r < length s)%nat)
  /\ (forall s acc v r, parse_elements n s acc = Some (v, r) -> (length r < length s)%nat)
  /\ (forall s acc v r, parse_members n s acc = Some (v, r) -> (length r < length s)%nat).
Proof.
  induction n as [|n (IHv & IHe & IHm)].
  { repeat split; intros; discriminate. }
  split; [|split].
  - intros s v r H. cbn [parse_value] in H.
    pose proof (skip_ws_length s) as Hws.
    destruct (skip_ws s) as [|c rest]; [discriminate|]. cbn [length] in Hws.
    destruct (c =? 34).
    { destruct (string_chars rest []) as [[str r0]|] eqn:Hs; [|discriminate].
      apply string_chars_length in Hs. inversion H; subst. lia. }
    destruct (c =? 91).
    { pose proof (skip_ws_length rest) as Hws2.
      destruct (skip_ws rest) as [|x r0]; [discriminate|]. cbn [length] in Hws2.
      destruct (x =? 93); [inversion H; subst; lia|].
      apply IHe in H. lia. }
    destruct (c =? 123).
    { pose proof (skip_ws_length rest) as Hws2.
      destruct (skip_ws rest) as [|x r0]; [discriminate|]. cbn [length] in Hws2.
      destruct (x =? 125); [inversion H; subst; lia|].
      apply IHm in H. lia. }
    destruct (c =? 116).
    { destruct (keyword (lit "true") (c :: rest)) as [r0|] eqn:Hk; [|discriminate].
      apply keyword_length in Hk. cbn in Hk. inversion H; subst. lia. }
    destruct (c =? 102).
    { destruct (keyword (lit "false") (c :: rest)) as [r0|] eqn:Hk; [|discriminate].
      apply keyword_length in Hk. cbn in Hk. inversion H; subst. lia. }
    destruct (c =? 110).
    { destruct (keyword (lit "null") (c :: rest)) as [r0|] eqn:Hk; [|discriminate].
      apply keyword_length in Hk. cbn in Hk. inversion H; subst. lia. }
    destruct (number (c :: rest)) as [[lx r0]|] eqn:Hnum; [|discriminate].
    apply number_length in Hnum. inversion H; subst. cbn [length] in *. lia.
  - intros s acc v r H. cbn [parse_elements] in H.
    destruct (parse_value n s) as [[v0 r0]|] eqn:Hv; [|discriminate].
    apply IHv in Hv.
    pose proof (skip_ws_length r0) as Hws.
    destruct (skip_ws r0) as [|c r']; [discriminate|]. cbn [length] in Hws.
    destruct (c =? 44); [apply IHe in H; lia|].
    destruct (c =? 93); [inversion H; subst; lia|discriminate].
  - intros s acc v r H. cbn [parse_members] in H.
    pose proof (skip_ws_length s) as Hws.
    destruct (skip_ws s) as [|q s1]; [discriminate|]. cbn [length] in Hws.
    destruct (q =? 34); [|discriminate].
    destruct (string_chars s1 []) as [[key s2]|] eqn:Hs; [|discriminate].
    apply string_chars_length in Hs.
    pose proof (skip_ws_length s2) as Hws2.
    destruct (skip_ws s2) as [|colon s3]; [discriminate|]. cbn [length] in Hws2.
    destruct (colon =? 58); [|discriminate].
    destruct (parse_value n s3) as [[v0 r0]|] eqn:Hv; [|discriminate].
    apply IHv in Hv.
    pose proof (skip_ws_length r0) as Hws3.
    destruct (skip_ws r0) as [|c r']; [discriminate|]. cbn [length] in Hws3.
    destruct (c =? 44); [apply IHm in H; lia|].
    destruct (c =? 125); [inversion H; subst; lia|discriminate].
Qed.

(** Beyond twice the length of the text, more fuel changes nothing. *)
Lemma parse_stable (n : nat) :
  (forall s m, (2 * length s + 1 <= n)%nat -> (n <= m)%nat ->
               parse_value m s = parse_value n s)
  /\ (forall s acc m, (2 * length s + 2 <= n)%nat -> (n <= m)%nat ->
                      parse_elements m s acc = parse_elements n s acc)
  /\ (forall s acc m, (2 * length s + 2 <= n)%nat -> (n <= m)%nat ->
                      parse_members m s acc = parse_members n s acc).
Proof.
  induction n as [|n (IHv & IHe & IHm)].
  { repeat split; intros; lia. }
  split; [|split].
  - intros s m Hn Hm. destruct m as [|m]; [lia|]. cbn [parse_value].
    pose proof (skip_ws_length s) as Hws.
    destruct (skip_ws s) as [|c rest]; [reflexivity|]. cbn [length] in Hws.
    destruct (c =? 34); [reflexivity|].
    pose proof (skip_ws_length rest) as Hws2.
    destruct (c =? 91).
    { destruct (skip_ws rest) as [|x r0]; [reflexivity|].
      destruct (x =? 93); [reflexivity|]. apply IHe; lia. }
    destruct (c =? 123).
    { destruct (skip_ws rest) as [|x r0]; [reflexivity|].
      destruct (x =? 125); [reflexivity|]. apply IHm; lia. }
    reflexivity.
  - intros s acc m Hn Hm. destruct m as [|m]; [lia|]. cbn [parse_elements].
    rewrite (IHv s m) by lia.
    destruct (parse_value n s) as [[v0 r0]|] eqn:Hv; [|reflexivity].
    apply (proj1 (parse_consumes n)) in Hv.
    pose proof (skip_ws_length r0) as Hws.
    destruct (skip_ws r0) as [|c r']; [reflexivity|]. cbn [length] in Hws.
    destruct (c =? 44); [apply IHe; lia|reflexivity].
  - intros s acc m Hn Hm. destruct m as [|m]; [lia|]. cbn [parse_members].
    pose proof (skip_ws_length s) as Hws.
    destruct (skip_ws s) as [|q s1]; [reflexivity|]. cbn [length] in Hws.
    destruct (q =? 34); [|reflexivity].
    destruct (string_chars s1 []) as [[key s2]|] eqn:Hs; [|reflexivity].
    apply string_chars_length in Hs.
    pose proof (skip_ws_length s2) as Hws2.
    destruct (skip_ws s2) as [|colon s3]; [reflexivity|]. cbn [length] in Hws2.
    destruct (colon =? 58); [|reflexivity].
    rewrite (IHv s3 m) by lia.
    destruct (parse_value n s3) as [[v0 r0]|] eqn:Hv; [|reflexivity].
    apply (proj1 (parse_consumes n)) in Hv.
    pose proof (skip_ws_length r0) as Hws3.
    destruct (skip_ws r0) as [|c r']; [reflexivity|]. cbn [length] in Hws3.
    destruct (c =? 44); [apply IHm; lia|reflexivity].
Qed.

(** The answer of [JSON.parse] is the answer of the parser with any larger
    fuel: a rejection is never the effect of the fuel running out. *)
Lemma parse_fuel_enough (text : jsstring) (m : nat) :
  (2 * length text + 2 <= m)%nat ->
  parse_with m text = parse_with (2 * length text + 2) text.
Proof.
  intros H. unfold parse_with.
  rewrite (proj1 (parse_stable (2 * length text + 2)) text m) by lia.
  reflexivity.
Qed.

End JSONFacts.

(* ------------------------------------------------------------------ *)
(** * Errors recorded by the receiver *)

(** An incomplete array is rejected whatever the fuel: the rejection is a
    syntax error, not a parser cut short. *)
Lemma partial_array_rejected (fuel : nat) :
  JSON.parse_with fuel (lit "[1,2") = None.
Proof. destruct fuel as [|[|[|[|fuel]]]]; reflexivity. Qed.

(** What the code does with a recorded error: it is thrown when its text is
    not empty and the accumulated text is empty or parses. *)
Lemma processFR_finish_error (resp : Response) (m : jsstring) :
  error resp = Some m -> truthy m = true ->
  data resp = [] \/ (exists v, JSON.parse (data resp) = inr v) ->
  processFR_finish resp = inl (Error m).
Proof.
  intros He Hm Hd. unfold processFR_finish. rewrite He. cbn [truthy_opt]. rewrite Hm.
  destruct Hd as [Hd|[v Hv]].
  - rewrite Hd. reflexivity.
  - rewrite Hv. destruct (0 <? len (data resp)); reflexivity.
Qed.

(** A NACK frame alone: [otaSend] fails with its text. *)
Lemma nack_alone :
  fst (otaSend defaultStrings (Some (scripted_device [device_report 4 8 "bad path"]))
               (lit "config get /a"))
  = Throw (Error (lit "bad path")).
Proof. vm_compute. reflexivity. Qed.

(** A NACK frame without text: the recorded error is the empty string, which
    is not thrown. *)
Lemma nack_without_text :
  fst (otaSend defaultStrings (Some (scripted_device [device_report 4 0 ""]))
               (lit "config get /a"))
  = Return (JSON.JString []).
Proof. vm_compute. reflexivity. Qed.

(** C5: the code at the failing input.  A FIRST frame that declares 9 bytes
    and carries the first 4, then a NACK frame with the text "bad path": the
    accumulated text is parsed before the recorded error is looked at, and
    [otaSend] fails with the [SyntaxError] of [JSON.parse], not with the
    recorded message. *)
Theorem nack_after_partial_payload :
  fst (otaSend defaultStrings
         (Some (scripted_device [device_report 0 9 "[1,2"; device_report 4 8 "bad path"]))
         (lit "config get /a"))
  = Throw SyntaxError.
Proof. vm_compute. reflexivity. Qed.

(* ------------------------------------------------------------------ *)
(** * Short reports *)

(** C6: the code on a report shorter than 6 bytes.  The length of the
    payload view is clamped at 0, but the view starts at byte 6 and the
    declared length is read at bytes 4 and 5: decoding throws a
    [RangeError], and so does the pass of the loop. *)
Theorem short_report_throws (STRINGS : OTAStrings) (dv : DataView) (resp : Response) :
  byteLength dv < 6 ->
  processFR_decode dv = inl RangeError
  /\ processFR_frame STRINGS dv resp = inl RangeError.
Proof.
  intros H. unfold processFR_frame.
  rewrite (processFR_decode_short dv H). split; reflexivity.
Qed.

Lemma short_report_throws_witness :
  processFR_decode (DV.of_bytes [6; 0; 255; 2; 0]) = inl RangeError
  /\ processFR_frame defaultStrings (DV.of_bytes [6; 0; 255; 2; 0]) (mkResponse None [])
     = inl RangeError.
Proof.
  apply (short_report_throws defaultStrings (DV.of_bytes [6; 0; 255; 2; 0])
                             (mkResponse None [])).
  vm_compute. reflexivity.
Defined.

(** The whole exchange on such a report. *)
Lemma short_report_rejects_send :
  fst (otaSend defaultStrings
         (Some (scripted_device [inr (DV.of_bytes [6; 0; 255; 2; 0])])) (lit "hb"))
  = Throw RangeError.
Proof. vm_compute. reflexivity. Qed.

(* ------------------------------------------------------------------ *)
(** * ACK_RSP *)

(** C7: when the loop reads a report with a complete header whose message
    type is 3 (ACK_RSP), the pass sets [remaining] to 1 and leaves the
    response as it was, so the loop goes on with the next read: at least
    two reads are made from there, the one of this report and one more. *)
Theorem ack_rsp_forces_read (STRINGS : OTAStrings) (dv : DataView)
  (q : list (jsstring + DataView)) (dev : HIDDevice) (remaining : Z) (resp : Response) :
  DV.wf dv -> 6 <= byteLength dv -> DV.byte_at dv 3 = 3 -> remaining <> 0 ->
  processFR_frame STRINGS dv resp = inr (1, resp)
  /\ processFR_loop STRINGS (inr dv :: q) dev remaining resp
     = processFR_loop STRINGS q (received dev OTA_FR.id q) 1 resp
  /\ (reads dev + 2 <= reads (snd (processFR_loop STRINGS (inr dv :: q) dev remaining resp)))%nat.
Proof.
  intros Hwf H6 Hty Hrem.
  assert (Hframe : processFR_frame STRINGS dv resp = inr (1, resp)).
  { unfold processFR_frame.
    destruct (processFR_decode_wf dv Hwf H6) as (data1 & ->).
    rewrite Hty. reflexivity. }
  assert (Hloop : processFR_loop STRINGS (inr dv :: q) dev remaining resp
                  = processFR_loop STRINGS q (received dev OTA_FR.id q) 1 resp).
  { cbn [processFR_loop]. destruct (Z.eqb_spec remaining 0); [contradiction|].
    rewrite Hframe. reflexivity. }
  split; [exact Hframe|]. split; [exact Hloop|].
  rewrite Hloop.
  destruct q as [|answer rest].
  - cbn [processFR_loop Z.eqb snd]. unfold reads, received.
    cbn [calls reads_of]. lia.
  - pose proof (processFR_loop_device STRINGS rest) as Hdev.
    cbn [processFR_loop Z.eqb].
    destruct answer as [err|dv'].
    + cbn [snd]. unfold reads, received. cbn [calls reads_of]. lia.
    + destruct (processFR_frame STRINGS dv' resp) as [e|[remaining' resp']].
      * cbn [snd]. unfold reads, received. cbn [calls reads_of]. lia.
      * destruct (Hdev (received (received dev OTA_FR.id (inr dv' :: rest)) OTA_FR.id rest)
                       remaining' resp') as (_ & _ & Hr).
        unfold reads, received in *. cbn [calls reads_of] in *. lia.
Qed.

Lemma ack_rsp_forces_read_witness :
  processFR_loop defaultStrings
    [inr (DV.of_bytes [6; 0; 255; 3; 0; 0]); device_report 6 4 "true"]
    idle_device 1 (mkResponse None [])
  = (Return (mkResponse None (lit "true")), after_reads idle_device 2 []).
Proof.
  assert (Hwf : DV.wf (DV.of_bytes [6; 0; 255; 3; 0; 0]))
    by (unfold DV.wf; vm_compute; repeat split; discriminate).
  assert (H6 : 6 <= byteLength (DV.of_bytes [6; 0; 255; 3; 0; 0]))
    by (vm_compute; discriminate).
  assert (Hrem : 1 <> 0) by discriminate.
  destruct (ack_rsp_forces_read defaultStrings (DV.of_bytes [6; 0; 255; 3; 0; 0])
              [device_report 6 4 "true"] idle_device 1 (mkResponse None [])
              Hwf H6 eq_refl Hrem) as (_ & Hloop & _).
  rewrite Hloop. vm_compute. reflexivity.
Defined.

(* ------------------------------------------------------------------ *)
(** * The checks made before sending *)

(** C8: on a device that is not opened, with a message configured for that
    case (as in the default strings), [otaSend] fails with that message;
    the device is left as it was, and no report is written. *)
Theorem otaSend_not_opened (STRINGS : OTAStrings) (dev : HIDDevice) (text : jsstring) :
  opened dev = false -> truthy (deviceNotOpened STRINGS) = true ->
  otaSend STRINGS (Some dev) text = (Throw (Error (deviceNotOpened STRINGS)), Some dev)
  /\ sent_reports STRINGS dev text = [].
Proof.
  intros Ho Hm.
  assert (H : otaSend STRINGS (Some dev) text
              = (Throw (Error (deviceNotOpened STRINGS)), Some dev)).
  { unfold otaSend. rewrite Ho. cbn [negb truthy_opt]. rewrite Hm. reflexivity. }
  split; [exact H|].
  unfold sent_reports, reports_since. rewrite H. cbn [snd]. apply skipn_all.
Qed.

Lemma otaSend_not_opened_witness :
  otaSend defaultStrings (Some closed_device) (lit "init")
  = (Throw (Error (lit "Device not opened")), Some closed_device)
  /\ sent_reports defaultStrings closed_device (lit "init") = [].
Proof.
  apply (otaSend_not_opened defaultStrings closed_device (lit "init")); reflexivity.
Defined.

(** C9: on an opened device, [otaSend] with the empty text fails with the
    message "No data"; the device is left as it was, and no report is
    written. *)
Theorem otaSend_no_data (STRINGS : OTAStrings) (dev : HIDDevice) :
  opened dev = true ->
  otaSend STRINGS (Some dev) [] = (Throw (Error (lit "No data")), Some dev)
  /\ sent_reports STRINGS dev [] = [].
Proof.
  intros Ho.
  assert (H : otaSend STRINGS (Some dev) [] = (Throw (Error (lit "No data")), Some dev)).
  { unfold otaSend. rewrite Ho. reflexivity. }
  split; [exact H|].
  unfold sent_reports, reports_since. rewrite H. cbn [snd]. apply skipn_all.
Qed.

(** The message is the literal of the source, not the configurable
    [dataTooLong] text. *)
Remark no_data_message : lit "No data" <> dataTooLong defaultStrings.
Proof. discriminate. Qed.

Lemma otaSend_no_data_witness :
  otaSend defaultStrings (Some idle_device) []
  = (Throw (Error (lit "No data")), Some idle_device)
  /\ sent_reports defaultStrings idle_device [] = [].
Proof. apply (otaSend_no_data defaultStrings idle_device). reflexivity. Defined.

(* ------------------------------------------------------------------ *)
(** * Closing *)

(** C10: [otaClose] on a device detaches the session, whatever the state
    of the device and whatever becomes of [close]; in particular when the
    device is opened and [close] is rejected, [otaClose] fails with the
    wrapped message, the session is detached all the same and the device is
    still opened. *)
Theorem otaClose_detaches_first (STRINGS : OTAStrings) (g : OtaGlobals) (d : HIDDevice) :
  device (snd (fst (otaClose STRINGS g (Some d)))) = None
  /\ forall e, opened d = true -> closeFault d = Some e ->
       otaClose STRINGS g (Some d)
       = (Throw (Error (fmt (errorClosingDevice STRINGS) [(lit "error", e)])),
          mkGlobals (hbTimeout g) None, Some (snd (close d)))
       /\ opened (snd (close d)) = true.
Proof.
  split.
  - unfold otaClose. destruct (opened d); [|reflexivity].
    destruct (close d) as [[e|] d']; reflexivity.
  - intros e Ho Hc. unfold otaClose, close. rewrite Ho, Hc. split; [reflexivity|].
    reflexivity.
Qed.

Lemma otaClose_detaches_first_witness :
  otaClose defaultStrings (mkGlobals 9000 (Some 1)) (Some stuck_device)
  = (Throw (Error (lit "Error closing device: NetworkError: Failed to close the device.")),
     mkGlobals 9000 None, Some (snd (close stuck_device))).
Proof.
  exact (proj1 (proj2 (otaClose_detaches_first defaultStrings (mkGlobals 9000 (Some 1))
                         stuck_device) _ eq_refl eq_refl)).
Defined.


(* ------------------------------------------------------------------ *)
(** * Further properties of the transmitter *)

Lemma after_sends_all (dev : HIDDevice) (rs : list (list Z)) :
  sendFaults dev = [] ->
  after_sends dev rs
  = mkDevice (ref dev) (opened dev)
             (rev (map (SendFeatureReport OTA_FR.id) rs) ++ calls dev)
             [] (incoming dev) (closeFault dev).
Proof. intros H. unfold after_sends. rewrite H, skipn_nil. reflexivity. Qed.

(** The transmit loop, rejections included. *)
Lemma otaSend_loop_exact (STRINGS : OTAStrings) (fuel : nat) :
  forall (dev : HIDDevice) (bytes : list Z) (k : nat),
    len bytes - 239 * Z.of_nat k <= Z.of_nat fuel ->
    otaSend_loop STRINGS fuel (Some dev) bytes
                 (Z.min (239 * Z.of_nat k) (len bytes)) (Z.of_nat k)
    = Some (match write_fault (sendFaults dev) (chunk_count bytes - k) with
            | Some e => Throw (Error (fmt (errorSendingFeatureReport STRINGS)
                                          [(lit "error", e)]))
            | None => Return tt
            end,
            Some (after_sends dev
                    (expected_reports bytes k
                       (handed (sendFaults dev) (chunk_count bytes - k))))).
Proof.
  assert (Hstop : forall fuel dev bytes k,
    len bytes <= 239 * Z.of_nat k ->
    otaSend_loop STRINGS fuel (Some dev) bytes
                 (Z.min (239 * Z.of_nat k) (len bytes)) (Z.of_nat k)
    = Some (match write_fault (sendFaults dev) (chunk_count bytes - k) with
            | Some e => Throw (Error (fmt (errorSendingFeatureReport STRINGS)
                                          [(lit "error", e)]))
            | None => Return tt
            end,
            Some (after_sends dev
                    (expected_reports bytes k
                       (handed (sendFaults dev) (chunk_count bytes - k)))))).
  { intros f dev bytes k H.
    rewrite (chunk_count_done bytes k H). cbn [write_fault handed].
    unfold expected_reports. cbn [seq map]. rewrite after_sends_nil.
    destruct f; cbn [otaSend_loop];
      destruct (Z.ltb_spec (Z.min (239 * Z.of_nat k) (len bytes)) (len bytes));
      solve [lia | reflexivity]. }
  induction fuel as [|fuel IH]; intros dev bytes k Hf.
  - apply Hstop. lia.
  - destruct (Z.le_gt_cases (len bytes) (239 * Z.of_nat k)) as [Hle|Hgt].
    { apply Hstop. exact Hle. }
    cbn [otaSend_loop].
    rewrite Z.min_l by lia.
    destruct (Z.ltb_spec (239 * Z.of_nat k) (len bytes)); [|lia].
    rewrite otaSend_report_expected by assumption.
    replace (239 * Z.of_nat k + Z.min OTA_FR.write.maxData (len bytes - 239 * Z.of_nat k))
      with (Z.min (239 * Z.of_nat (S k)) (len bytes))
      by (unfold OTA_FR.write.maxData; lia).
    replace (Z.of_nat k + 1) with (Z.of_nat (S k)) by lia.
    pose proof (after_sends_cons dev (expected_report bytes k)) as Hcons.
    rewrite (chunk_count_more bytes k Hgt).
    unfold sendFeatureReport in *.
    destruct (sendFaults dev) as [|[e|] rest] eqn:Hfaults; cbn [snd] in Hcons.
    + rewrite IH by lia. cbn [sendFaults write_fault handed].
      destruct (chunk_count bytes - S k)%nat eqn:Hc; cbn [write_fault handed];
        unfold expected_reports in *; cbn [seq map]; rewrite <- Hcons;
        reflexivity.
    + cbn [write_fault handed]. unfold expected_reports. cbn [seq map].
      rewrite <- Hcons, after_sends_nil. reflexivity.
    + rewrite IH by lia. cbn [sendFaults write_fault handed].
      unfold expected_reports in *. cbn [seq map]. rewrite <- Hcons. reflexivity.
Qed.

Lemma handed_no_fault (faults : list (option jsstring)) (n : nat) :
  write_fault faults n = None -> handed faults n = n.
Proof.
  revert faults. induction n as [|n IH]; intros faults H; [reflexivity|].
  cbn [write_fault handed] in *.
  destruct faults as [|[e|] rest]; [reflexivity|discriminate|].
  rewrite IH by assumption. reflexivity.
Qed.

Lemma handed_le (faults : list (option jsstring)) (n : nat) :
  (handed faults n <= n)%nat /\ (0 < n -> 0 < handed faults n)%nat.
Proof.
  revert faults. induction n as [|n IH]; intros faults; cbn [handed]; [lia|].
  destruct faults as [|[e|] rest]; try lia.
  destruct (IH rest). lia.
Qed.

Lemma handed_at (i : nat) (e : jsstring) rest (n : nat) :
  (i < n)%nat ->
  handed (repeat None i ++ Some e :: rest) n = S i
  /\ write_fault (repeat None i ++ Some e :: rest) n = Some e.
Proof.
  revert n. induction i as [|i IH]; intros n Hn;
    (destruct n as [|n]; [lia|]); cbn [repeat app handed write_fault].
  - auto.
  - destruct (IH n) as [-> ->]; [lia|]. auto.
Qed.

(** The receive loop only adds reads: it makes [n] of them and leaves the
    answers after the first [n]. *)
Lemma processFR_loop_reads (STRINGS : OTAStrings) (q : list (jsstring + DataView)) :
  forall dev remaining resp,
    incoming dev = q ->
    exists n,
      snd (processFR_loop STRINGS q dev remaining resp) = after_reads dev n (skipn n q)
      /\ (remaining <> 0 -> (1 <= n)%nat).
Proof.
  induction q as [|answer rest IH]; intros dev remaining resp Hq;
    cbn [processFR_loop]; destruct (Z.eqb_spec remaining 0) as [Hz|Hz].
  - exists 0%nat. cbn [snd skipn]. split; [|contradiction].
    unfold after_reads. cbn [repeat app]. rewrite <- Hq. destruct dev; reflexivity.
  - exists 1%nat. cbn [snd skipn]. split; [reflexivity|lia].
  - exists 0%nat. cbn [snd skipn]. split; [|contradiction].
    unfold after_reads. cbn [repeat app]. rewrite <- Hq. destruct dev; reflexivity.
  - assert (Hone : received dev OTA_FR.id rest = after_reads dev 1 rest) by reflexivity.
    destruct answer as [err|dv].
    + exists 1%nat. cbn [snd skipn]. split; [exact Hone|lia].
    + destruct (processFR_frame STRINGS dv resp) as [e|[remaining' resp']].
      * exists 1%nat. cbn [snd skipn]. split; [exact Hone|lia].
      * destruct (IH (received dev OTA_FR.id rest) remaining' resp') as (n & Hn & _);
          [reflexivity|].
        exists (S n). rewrite Hn. cbn [skipn]. split; [|lia].
        apply after_reads_received.
Qed.

(** [processFR] on an opened device. *)
Lemma processFR_opened (STRINGS : OTAStrings) (dev : HIDDevice) :
  opened dev = true ->
  exists r n,
    processFR STRINGS (Some dev)
    = (r, Some (after_reads dev n (skipn n (incoming dev)))) /\ (1 <= n)%nat.
Proof.
  intros Ho. unfold processFR. rewrite Ho. cbn [negb].
  destruct (processFR_loop_reads STRINGS (incoming dev) dev 1 (mkResponse None [])
              eq_refl) as (n & Hn & H1).
  destruct (processFR_loop STRINGS (incoming dev) dev 1 (mkResponse None []))
    as [[resp|e|] dev'] eqn:Hloop; cbn [snd] in Hn; subst dev';
    eexists _, n; (split; [reflexivity|apply H1; discriminate]).
Qed.

(** [otaSend] once its checks are passed: the reports are handed over until
    the first rejection, which is thrown; without one [processFR] runs. *)
Lemma otaSend_exact (STRINGS : OTAStrings) (dev : HIDDevice) (data : jsstring) :
  opened dev = true -> truthy data = true ->
  let bytes := UTF8.TextEncoder_encode data in
  let dev1 := after_sends dev (expected_reports bytes 0
                                 (handed (sendFaults dev) (chunk_count bytes))) in
  otaSend STRINGS (Some dev) data
  = match write_fault (sendFaults dev) (chunk_count bytes) with
    | Some e => (Throw (Error (fmt (errorSendingFeatureReport STRINGS)
                                   [(lit "error", e)])), Some dev1)
    | None => processFR STRINGS (Some dev1)
    end.
Proof.
  intros Ho Ht. cbn zeta. rewrite otaSend_guard_passed by assumption.
  unfold otaSend_transmit.
  set (bytes := UTF8.TextEncoder_encode data).
  pose proof (otaSend_loop_exact STRINGS (length bytes) dev bytes 0) as H.
  change (Z.of_nat 0) with 0 in H. change (239 * 0) with 0 in H.
  rewrite Z.min_l in H by apply len_nonneg.
  rewrite Nat.sub_0_r in H. rewrite H by (unfold len; lia).
  destruct (write_fault (sendFaults dev) (chunk_count bytes)); reflexivity.
Qed.

Lemma sent_reports_exact (STRINGS : OTAStrings) (dev : HIDDevice) (data : jsstring) :
  opened dev = true -> truthy data = true ->
  sent_reports STRINGS dev data
  = expected_reports (UTF8.TextEncoder_encode data) 0
      (handed (sendFaults dev) (chunk_count (UTF8.TextEncoder_encode data))).
Proof.
  intros Ho Ht. unfold sent_reports.
  rewrite (otaSend_exact STRINGS dev data Ho Ht).
  set (dev1 := after_sends dev _).
  destruct (write_fault (sendFaults dev) (chunk_count (UTF8.TextEncoder_encode data))).
  - cbn [snd]. apply reports_since_after_sends.
  - destruct (processFR_device STRINGS dev1) as (dev' & Hd & Hw).
    rewrite Hd. unfold reports_since. rewrite Hw.
    apply reports_since_after_sends.
Qed.

Lemma firstn_plus {A} (a b : nat) (l : list A) :
  firstn (a + b) l = firstn a l ++ firstn b (skipn a l).
Proof.
  revert l. induction a as [|a IH]; intros l; [reflexivity|].
  destruct l as [|x l]; cbn [Nat.add firstn skipn app].
  - rewrite firstn_nil. reflexivity.
  - rewrite IH. reflexivity.
Qed.

Lemma expected_chunks_concat (bytes : list Z) (m k : nat) :
  concat (map (expected_chunk bytes) (seq k m))
  = firstn (239 * m) (skipn (239 * k) bytes).
Proof.
  revert k. induction m as [|m IH]; intros k; cbn [seq map concat].
  - rewrite Nat.mul_0_r. reflexivity.
  - rewrite IH. unfold expected_chunk.
    replace (239 * S k)%nat with (239 + 239 * k)%nat by lia.
    rewrite <- skipn_skipn.
    replace (239 * S m)%nat with (239 + 239 * m)%nat by lia.
    symmetry. apply firstn_plus.
Qed.

(** X1.  Every report handed to the device by [otaSend] is 244 bytes long:
    the bytes 0x00 and 0xFF, the message type (FIRST for the first report,
    MID for every later one), the two length bytes, the chunk, and zeros
    from the end of the chunk to the end of the report. *)
Theorem otaSend_report_layout (STRINGS : OTAStrings) (dev : HIDDevice)
  (data : jsstring) (k : nat) (f : list Z) :
  opened dev = true -> truthy data = true ->
  nth_error (sent_reports STRINGS dev data) k = Some f ->
  let chunkLen :=
    Z.to_nat (Z.min 239 (len (UTF8.TextEncoder_encode data) - 239 * Z.of_nat k)) in
  length f = 244%nat
  /\ firstn 2 f = [0; 255]
  /\ message_type f = (if Nat.eqb k 0 then 0 else 1)
  /\ skipn (5 + chunkLen) f = repeat 0 (239 - chunkLen)%nat.
Proof.
  intros Ho Ht Hn. cbn zeta.
  destruct (sent_report_expected STRINGS dev data k f Ho Ht Hn) as [-> Hk].
  set (bytes := UTF8.TextEncoder_encode data) in *.
  split; [apply expected_report_length|].
  split; [reflexivity|]. split; [reflexivity|].
  pose proof (expected_chunk_length bytes k) as Hl.
  replace (Z.to_nat (Z.min 239 (len bytes - 239 * Z.of_nat k)))
    with (length (expected_chunk bytes k)) by (unfold len in *; lia).
  unfold expected_report, expected_layout.
  cbn [app skipn Nat.add].
  rewrite skipn_app, skipn_all, Nat.sub_diag. reflexivity.
Qed.

Lemma otaSend_report_layout_witness :
  exists f,
    nth_error (sent_reports defaultStrings idle_device (letters 240)) 1 = Some f
    /\ length f = 244%nat /\ message_type f = 1
    /\ skipn 6 f = repeat 0 238%nat.
Proof.
  exists (nth 1 (sent_reports defaultStrings idle_device (letters 240)) []).
  assert (Hn : nth_error (sent_reports defaultStrings idle_device (letters 240)) 1
               = Some (nth 1 (sent_reports defaultStrings idle_device (letters 240)) []))
    by (vm_compute; reflexivity).
  destruct (otaSend_report_layout defaultStrings idle_device (letters 240) 1 _
              eq_refl eq_refl Hn) as (Hlen & _ & Hty & Hpad).
  split; [exact Hn|]. split; [exact Hlen|]. split; [exact Hty|].
  vm_compute. reflexivity.
Defined.

(** X2.  On a device that accepts every write, [otaSend] hands over exactly
    the number of reports that 239-byte chunks need: with [n] reports,
    [239 * (n - 1)] is less than the encoded length, which is at most
    [239 * n]. *)
Theorem otaSend_report_count (STRINGS : OTAStrings) (dev : HIDDevice) (data : jsstring) :
  opened dev = true -> truthy data = true -> sendFaults dev = [] ->
  let total := len (UTF8.TextEncoder_encode data) in
  let n := len (sent_reports STRINGS dev data) in
  239 * (n - 1) < total <= 239 * n.
Proof.
  intros Ho Ht Hf. cbn zeta.
  rewrite sent_reports_reliable by assumption.
  assert (Hn : len (expected_reports (UTF8.TextEncoder_encode data) 0
                      (chunk_count (UTF8.TextEncoder_encode data)))
               = Z.of_nat (chunk_count (UTF8.TextEncoder_encode data))).
  { unfold expected_reports, len. rewrite length_map, length_seq. reflexivity. }
  rewrite Hn. clear Hn.
  assert (Hpos : 0 < len (UTF8.TextEncoder_encode data)).
  { destruct data as [|c s]; [discriminate|].
    unfold UTF8.TextEncoder_encode. cbn [UTF8.scalar_values].
    assert (He : forall cp, 0 < len (UTF8.encode_scalar cp)).
    { intros cp. unfold UTF8.encode_scalar.
      destruct (cp <=? 127), (cp <=? 2047), (cp <=? 65535); cbn; lia. }
    assert (Hfm : forall cp l, 0 < len (flat_map UTF8.encode_scalar (cp :: l))).
    { intros cp l. cbn [flat_map]. rewrite len_app.
      pose proof (He cp). pose proof (len_nonneg (flat_map UTF8.encode_scalar l)). lia. }
    destruct (UTF8.in_range 55296 56319 c).
    - destruct s as [|v s']; [apply Hfm|].
      destruct (UTF8.in_range 56320 57343 v); apply Hfm.
    - destruct (UTF8.in_range 56320 57343 c); apply Hfm. }
  revert Hpos. generalize (UTF8.TextEncoder_encode data). intros bytes Hpos.
  div_lia.
Qed.

Lemma otaSend_report_count_witness :
  let n := len (sent_reports defaultStrings idle_device (letters 478)) in
  n = 2 /\ 239 * (n - 1) < len (UTF8.TextEncoder_encode (letters 478)) <= 239 * n.
Proof.
  split; [vm_compute; reflexivity|].
  apply (otaSend_report_count defaultStrings idle_device (letters 478)); reflexivity.
Defined.

(** X3.  On a device that accepts every write, the chunks carried by the
    reports of [otaSend], taken in order, are the encoded text: nothing is
    lost, repeated or reordered. *)
Theorem otaSend_chunks_partition (STRINGS : OTAStrings) (dev : HIDDevice)
  (data : jsstring) :
  opened dev = true -> truthy data = true -> sendFaults dev = [] ->
  let bytes := UTF8.TextEncoder_encode data in
  let rs := sent_reports STRINGS dev data in
  concat (map (fun k => firstn (Z.to_nat (Z.min 239 (len bytes - 239 * Z.of_nat k)))
                               (payload_area (nth k rs [])))
              (seq 0 (length rs)))
  = bytes.
Proof.
  intros Ho Ht Hf. cbn zeta.
  rewrite sent_reports_reliable by assumption.
  set (bytes := UTF8.TextEncoder_encode data).
  unfold expected_reports at 2. rewrite length_map, length_seq.
  rewrite (map_ext_in _ (expected_chunk bytes)).
  - rewrite expected_chunks_concat. cbn [Nat.mul skipn].
    apply firstn_all2. div_lia.
  - intros k Hin. apply in_seq in Hin.
    unfold expected_reports.
    rewrite (nth_indep _ [] (expected_report bytes 0))
      by (rewrite length_map, length_seq; lia).
    rewrite map_nth, seq_nth by lia. cbn [Nat.add].
    rewrite payload_area_expected.
    pose proof (expected_chunk_length bytes k) as Hl.
    pose proof (chunk_starts_inside bytes k ltac:(lia)) as Hk.
    replace (Z.to_nat (Z.min 239 (len bytes - 239 * Z.of_nat k)))
      with (length (expected_chunk bytes k)) by (unfold len in *; lia).
    rewrite firstn_app, firstn_all, Nat.sub_diag, firstn_0. apply app_nil_r.
Qed.

Lemma otaSend_chunks_partition_witness :
  concat (map (fun k => firstn (Z.to_nat (Z.min 239
                                   (len (UTF8.TextEncoder_encode (accented 250))
                                    - 239 * Z.of_nat k)))
                               (payload_area
                                  (nth k (sent_reports defaultStrings idle_device
                                            (accented 250)) [])))
              (seq 0 (length (sent_reports defaultStrings idle_device (accented 250)))))
  = UTF8.TextEncoder_encode (accented 250).
Proof.
  apply (otaSend_chunks_partition defaultStrings idle_device (accented 250));
    reflexivity.
Defined.

Lemma encode_nonempty (data : jsstring) :
  truthy data = true -> 0 < len (UTF8.TextEncoder_encode data).
Proof.
  intros Ht. destruct data as [|c s]; [discriminate|].
  unfold UTF8.TextEncoder_encode. cbn [UTF8.scalar_values].
  assert (He : forall cp, 0 < len (UTF8.encode_scalar cp)).
  { intros cp. unfold UTF8.encode_scalar.
    destruct (cp <=? 127), (cp <=? 2047), (cp <=? 65535); cbn; lia. }
  assert (Hfm : forall cp l, 0 < len (flat_map UTF8.encode_scalar (cp :: l))).
  { intros cp l. cbn [flat_map]. rewrite len_app.
    pose proof (He cp). pose proof (len_nonneg (flat_map UTF8.encode_scalar l)). lia. }
  destruct (UTF8.in_range 55296 56319 c).
  - destruct s as [|v s']; [apply Hfm|].
    destruct (UTF8.in_range 56320 57343 v); apply Hfm.
  - destruct (UTF8.in_range 56320 57343 c); apply Hfm.
Qed.

(** X4.  A text whose encoding has at most 239 bytes goes out in exactly
    one report, whatever the device answers to the write: type FIRST, the
    byte count in the low length byte, 0 in the high one, the encoded text,
    zeros. *)
Theorem otaSend_single_report (STRINGS : OTAStrings) (dev : HIDDevice)
  (data : jsstring) :
  opened dev = true -> truthy data = true ->
  len (UTF8.TextEncoder_encode data) <= 239 ->
  let bytes := UTF8.TextEncoder_encode data in
  sent_reports STRINGS dev data
  = [[0; 255; 0; len bytes; 0] ++ bytes ++ repeat 0 (239 - length bytes)%nat].
Proof.
  intros Ho Ht Hlen. cbn zeta. rewrite sent_reports_exact by assumption.
  pose proof (encode_nonempty data Ht) as Hpos.
  set (bytes := UTF8.TextEncoder_encode data) in *.
  assert (Hc : chunk_count bytes = 1%nat) by div_lia.
  rewrite Hc.
  assert (Hh : handed (sendFaults dev) 1 = 1%nat).
  { cbn [handed]. destruct (sendFaults dev) as [|[e|] rest]; reflexivity. }
  rewrite Hh. unfold expected_reports. cbn [seq map].
  unfold expected_report, expected_layout, expected_chunk.
  rewrite Nat.mul_0_r. cbn [Nat.eqb skipn]. change (239 * Z.of_nat 0) with 0.
  rewrite Z.sub_0_r.
  rewrite (firstn_all2 (n := 239%nat)) by (unfold len in *; lia).
  change 255 with (Z.ones 8) at 2 3.
  rewrite Z.land_ones, Z.shiftr_div_pow2, Z.land_ones by lia.
  change (2 ^ 8) with 256.
  rewrite (Z.mod_small (len bytes) 256) by lia.
  rewrite (Z.div_small (len bytes) 256) by lia.
  reflexivity.
Qed.

Lemma otaSend_single_report_witness :
  sent_reports defaultStrings idle_device (lit "hb")
  = [[0; 255; 0; 2; 0; 104; 98] ++ repeat 0 237%nat].
Proof.
  rewrite (otaSend_single_report defaultStrings idle_device (lit "hb") eq_refl eq_refl).
  - reflexivity.
  - vm_compute. discriminate.
Defined.

(** X5.  When the device accepts [i] writes and rejects the next one with a
    reason that prints as [e], while chunks are still to be sent, [otaSend]
    fails with the formatted [errorSendingFeatureReport] message; the
    rejected report is the last one handed to the device and no read is
    made. *)
Theorem otaSend_write_rejected (STRINGS : OTAStrings) (dev : HIDDevice)
  (data : jsstring) (i : nat) (e : jsstring) (rest : list (option jsstring)) :
  opened dev = true -> truthy data = true ->
  sendFaults dev = repeat None i ++ Some e :: rest ->
  239 * Z.of_nat i < len (UTF8.TextEncoder_encode data) ->
  exists dev',
    otaSend STRINGS (Some dev) data
    = (Throw (Error (fmt (errorSendingFeatureReport STRINGS) [(lit "error", e)])),
       Some dev')
    /\ length (sent_reports STRINGS dev data) = S i
    /\ reads dev' = reads dev
    /\ incoming dev' = incoming dev
    /\ sendFaults dev' = rest.
Proof.
  intros Ho Ht Hf Hi.
  set (bytes := UTF8.TextEncoder_encode data) in *.
  assert (Hc : (i < chunk_count bytes)%nat) by div_lia.
  destruct (handed_at i e rest (chunk_count bytes) Hc) as [Hh Hw].
  eexists. split; [|split; [|split; [|split]]].
  - rewrite (otaSend_exact STRINGS dev data Ho Ht).
    fold bytes. rewrite Hf, Hw, Hh. reflexivity.
  - rewrite sent_reports_exact by assumption. fold bytes. rewrite Hf, Hh.
    unfold expected_reports. rewrite length_map, length_seq. reflexivity.
  - unfold reads, after_sends. cbn [calls]. rewrite reads_of_app.
    assert (H0 : forall rs,
               reads_of (rev (map (SendFeatureReport OTA_FR.id) rs)) = 0%nat).
    { induction rs as [|r rs IH]; cbn [map rev]; [reflexivity|].
      rewrite reads_of_app, IH. reflexivity. }
    rewrite H0. reflexivity.
  - reflexivity.
  - unfold after_sends. cbn [sendFaults].
    unfold expected_reports. rewrite length_map, length_seq, Hf.
    rewrite skipn_app, repeat_length.
    rewrite (skipn_all2 (n := S i)) by (rewrite repeat_length; lia).
    replace (S i - i)%nat with 1%nat by lia. reflexivity.
Qed.

Lemma otaSend_write_rejected_witness :
  fst (otaSend defaultStrings
         (Some (mkDevice 1 true [] [None; Some (lit "NotAllowedError: Failed to write")]
                         [] None))
         (letters 500))
  = Throw (Error (lit "Error sending feature report: NotAllowedError: Failed to write")).
Proof.
  destruct (otaSend_write_rejected defaultStrings
              (mkDevice 1 true [] [None; Some (lit "NotAllowedError: Failed to write")]
                        [] None)
              (letters 500) 1 (lit "NotAllowedError: Failed to write") []
              eq_refl eq_refl eq_refl) as (dev' & H & _).
  - vm_compute. reflexivity.
  - rewrite H. reflexivity.
Defined.

(** X6.  When no write is rejected, [otaSend] hands all its reports to the
    device before its first read, and then reads at least once: the calls it
    adds are the writes, in order, followed by one or more reads. *)
Theorem otaSend_writes_then_reads (STRINGS : OTAStrings) (dev : HIDDevice)
  (data : jsstring) :
  opened dev = true -> truthy data = true -> sendFaults dev = [] ->
  exists dev' n,
    snd (otaSend STRINGS (Some dev) data) = Some dev'
    /\ (1 <= n)%nat
    /\ calls dev'
       = repeat (ReceiveFeatureReport OTA_FR.id) n
         ++ rev (map (SendFeatureReport OTA_FR.id) (sent_reports STRINGS dev data))
         ++ calls dev.
Proof.
  intros Ho Ht Hf.
  rewrite sent_reports_exact by assumption.
  rewrite (otaSend_exact STRINGS dev data Ho Ht). rewrite Hf.
  set (bytes := UTF8.TextEncoder_encode data).
  assert (Hw : write_fault [] (chunk_count bytes) = None)
    by (destruct (chunk_count bytes); reflexivity).
  rewrite Hw.
  set (dev1 := after_sends dev _).
  destruct (processFR_opened STRINGS dev1 Ho) as (r & n & Heq & Hn).
  rewrite Heq. cbn [snd]. eexists _, n. split; [reflexivity|]. split; [exact Hn|].
  reflexivity.
Qed.

Lemma otaSend_writes_then_reads_witness :
  exists dev' n,
    snd (otaSend defaultStrings (Some (scripted_device [device_report 2 0 ""]))
                 (letters 240)) = Some dev'
    /\ (1 <= n)%nat
    /\ calls dev'
       = repeat (ReceiveFeatureReport OTA_FR.id) n
         ++ rev (map (SendFeatureReport OTA_FR.id)
                   (sent_reports defaultStrings (scripted_device [device_report 2 0 ""])
                                 (letters 240)))
         ++ calls (scripted_device [device_report 2 0 ""]).
Proof.
  apply (otaSend_writes_then_reads defaultStrings
           (scripted_device [device_report 2 0 ""]) (letters 240)); reflexivity.
Defined.

(** X7.  The check on [opened] is made through the truthiness of its
    message: when [STRINGS.deviceNotOpened] is the empty string, [otaSend]
    on a device that is not opened does not stop there.  It hands every
    report to the device (here one that accepts them), and then fails in
    [processFR] with the empty message, before any read. *)
Theorem otaSend_empty_message_skips_check (STRINGS : OTAStrings) (dev : HIDDevice)
  (data : jsstring) :
  opened dev = false -> deviceNotOpened STRINGS = [] ->
  truthy data = true -> sendFaults dev = [] ->
  let bytes := UTF8.TextEncoder_encode data in
  otaSend STRINGS (Some dev) data
  = (Throw (Error []),
     Some (after_sends dev (expected_reports bytes 0 (chunk_count bytes))))
  /\ (0 < chunk_count bytes)%nat.
Proof.
  intros Ho Hm Ht Hf. cbn zeta. split.
  - unfold otaSend. rewrite Ho, Hm. cbn [negb truthy_opt truthy].
    destruct (otaSend_transmit_spec STRINGS dev data) as (r & j & Heq & _ & Hrel).
    destruct (Hrel Hf) as [-> ->]. rewrite Heq.
    unfold processFR, after_sends. cbn [opened]. rewrite Ho, Hm. reflexivity.
  - pose proof (encode_nonempty data Ht). div_lia.
Qed.

Lemma otaSend_empty_message_skips_check_witness :
  otaSend (configureOtaLocale defaultStrings (only_deviceNotOpened []))
    (Some closed_device) (lit "hb")
  = (Throw (Error []),
     Some (after_sends closed_device
             (expected_reports (lit "hb") 0 1))).
Proof.
  exact (proj1 (otaSend_empty_message_skips_check
                  (configureOtaLocale defaultStrings (only_deviceNotOpened []))
                  closed_device (lit "hb") eq_refl eq_refl eq_refl eq_refl)).
Defined.

(* ------------------------------------------------------------------ *)
(** * Further properties of the receiver *)

(** The text a report carries: the decoded payload, cut at the declared
    length. *)
Lemma processFR_frame_of_bytes (STRINGS : OTAStrings) (i a b ty lo hi : Z)
  (payload : list Z) (resp : Response) :
  processFR_frame STRINGS (DV.of_bytes (i :: a :: b :: ty :: lo :: hi :: payload)) resp
  = inr (processFR_dispatch STRINGS ty (Z.lor lo (Z.shiftl hi 8))
           (slice (UTF8.TextDecoder_decode payload) 0
                  (Z.min (Z.lor lo (Z.shiftl hi 8))
                         (len (UTF8.TextDecoder_decode payload))))
           resp).
Proof. unfold processFR_frame. rewrite processFR_decode_of_bytes. reflexivity. Qed.

Lemma processFR_first_frame (STRINGS : OTAStrings) (dev : HIDDevice) (dv : DataView)
  rest (resp' : Response) :
  opened dev = true -> incoming dev = inr dv :: rest ->
  processFR_frame STRINGS dv (mkResponse None []) = inr (0, resp') ->
  processFR STRINGS (Some dev)
  = (settle (processFR_finish resp'), Some (after_reads dev 1 rest)).
Proof.
  intros Ho Hq Hf. unfold processFR. rewrite Ho, Hq. cbn [negb processFR_loop Z.eqb].
  rewrite Hf. rewrite processFR_loop_zero. reflexivity.
Qed.

(** X8.  An ACK_NRSP report with a complete header, read first, ends the
    exchange after that one read with the empty string as the result,
    whatever its declared length and payload; the answers after it are left
    unread. *)
Theorem processFR_ack_nrsp (STRINGS : OTAStrings) (dev : HIDDevice) (dv : DataView)
  (rest : list (jsstring + DataView)) :
  opened dev = true -> incoming dev = inr dv :: rest ->
  DV.wf dv -> 6 <= byteLength dv -> DV.byte_at dv 3 = 2 ->
  processFR STRINGS (Some dev)
  = (Return (JSON.JString []), Some (after_reads dev 1 rest)).
Proof.
  intros Ho Hq Hwf H6 Hty.
  rewrite (processFR_first_frame STRINGS dev dv rest (mkResponse None []) Ho Hq).
  - reflexivity.
  - unfold processFR_frame.
    destruct (processFR_decode_wf dv Hwf H6) as (data1 & ->).
    rewrite Hty. reflexivity.
Qed.

Lemma processFR_ack_nrsp_witness :
  processFR defaultStrings
    (Some (scripted_device [device_report 2 300 "ignored"; device_report 6 4 "true"]))
  = (Return (JSON.JString []),
     Some (after_reads
             (scripted_device [device_report 2 300 "ignored"; device_report 6 4 "true"])
             1 [device_report 6 4 "true"])).
Proof.
  apply (processFR_ack_nrsp defaultStrings
           (scripted_device [device_report 2 300 "ignored"; device_report 6 4 "true"])
           (DV.of_bytes ([OTA_FR.id; 0; 255; 2; Z.land 300 255;
                          Z.land (Z.shiftr 300 8) 255] ++ lit "ignored"))).
  - reflexivity.
  - reflexivity.
  - unfold DV.wf. vm_compute. repeat split; discriminate.
  - vm_compute. discriminate.
  - reflexivity.
Defined.

(** A NACK report read first. *)
Lemma processFR_nack_first (STRINGS : OTAStrings) (dev : HIDDevice)
  (i a b lo hi : Z) (payload : list Z) (rest : list (jsstring + DataView)) :
  opened dev = true ->
  incoming dev = inr (DV.of_bytes (i :: a :: b :: 4 :: lo :: hi :: payload)) :: rest ->
  let declared := Z.lor lo (Z.shiftl hi 8) in
  let decoded := UTF8.TextDecoder_decode payload in
  let text := slice decoded 0 (Z.min declared (len decoded)) in
  processFR STRINGS (Some dev)
  = (if truthy text then Throw (Error text) else Return (JSON.JString []),
     Some (after_reads dev 1 rest)).
Proof.
  intros Ho Hq. cbn zeta.
  rewrite (processFR_first_frame STRINGS dev _ rest _ Ho Hq
             (processFR_frame_of_bytes STRINGS i a b 4 lo hi payload _)).
  unfold processFR_finish. cbn [data error len length Z.of_nat Z.ltb Z.compare
    JS.bind JS.ret truthy_opt].
  destruct (truthy _); reflexivity.
Qed.

(** X9.  A NACK report read first ends the exchange after that one read.
    Its text is the decoded payload cut at the declared length; when that
    text is not empty [processFR] fails with exactly it, and when it is
    empty nothing is thrown: the empty string is returned as for an
    ACK_NRSP. *)
Theorem processFR_nack (STRINGS : OTAStrings) (dev : HIDDevice)
  (i a b lo hi : Z) (payload : list Z) (rest : list (jsstring + DataView)) :
  opened dev = true ->
  incoming dev = inr (DV.of_bytes (i :: a :: b :: 4 :: lo :: hi :: payload)) :: rest ->
  let declared := Z.lor lo (Z.shiftl hi 8) in
  let decoded := UTF8.TextDecoder_decode payload in
  let text := slice decoded 0 (Z.min declared (len decoded)) in
  processFR STRINGS (Some dev)
  = (if truthy text then Throw (Error text) else Return (JSON.JString []),
     Some (after_reads dev 1 rest)).
Proof. exact (processFR_nack_first STRINGS dev i a b lo hi payload rest). Qed.

Lemma processFR_nack_witness :
  processFR defaultStrings (Some (scripted_device [device_report 4 3 "bad path"]))
  = (Throw (Error (lit "bad")),
     Some (after_reads (scripted_device [device_report 4 3 "bad path"]) 1 [])).
Proof.
  exact (processFR_nack defaultStrings (scripted_device [device_report 4 3 "bad path"])
           OTA_FR.id 0 255 3 0 (lit "bad path") [] eq_refl eq_refl).
Defined.

(** X10.  An EMPTY report with a complete header, read first, ends the
    exchange after that one read: [processFR] fails with the configured
    [emptyResponse] message when that message is not empty. *)
Theorem processFR_empty (STRINGS : OTAStrings) (dev : HIDDevice) (dv : DataView)
  (rest : list (jsstring + DataView)) :
  opened dev = true -> incoming dev = inr dv :: rest ->
  DV.wf dv -> 6 <= byteLength dv -> DV.byte_at dv 3 = 5 ->
  truthy (emptyResponse STRINGS) = true ->
  processFR STRINGS (Some dev)
  = (Throw (Error (emptyResponse STRINGS)), Some (after_reads dev 1 rest)).
Proof.
  intros Ho Hq Hwf H6 Hty Hm.
  rewrite (processFR_first_frame STRINGS dev dv rest
             (mkResponse (Some (emptyResponse STRINGS)) []) Ho Hq).
  - unfold processFR_finish. cbn [data error len length Z.of_nat Z.ltb Z.compare
      JS.bind JS.ret truthy_opt]. rewrite Hm. reflexivity.
  - unfold processFR_frame.
    destruct (processFR_decode_wf dv Hwf H6) as (data1 & ->).
    rewrite Hty. reflexivity.
Qed.

Lemma processFR_empty_witness :
  processFR defaultStrings (Some (scripted_device [device_report 5 0 ""]))
  = (Throw (Error (lit "Empty response")),
     Some (after_reads (scripted_device [device_report 5 0 ""]) 1 [])).
Proof.
  apply (processFR_empty defaultStrings (scripted_device [device_report 5 0 ""])
           (DV.of_bytes [OTA_FR.id; 0; 255; 5; 0; 0])).
  - reflexivity.
  - reflexivity.
  - unfold DV.wf. vm_compute. repeat split; discriminate.
  - vm_compute. discriminate.
  - reflexivity.
  - reflexivity.
Defined.

(** X11.  With the default strings, a report with a complete header whose
    type byte is 7 or more, read first, ends the exchange after that one
    read: [processFR] fails with "Unknown message type: " followed by the
    decimal value of the byte. *)
Theorem processFR_unknown_type (dev : HIDDevice) (dv : DataView)
  (rest : list (jsstring + DataView)) :
  opened dev = true -> incoming dev = inr dv :: rest ->
  DV.wf dv -> 6 <= byteLength dv -> 7 <= DV.byte_at dv 3 ->
  processFR defaultStrings (Some dev)
  = (Throw (Error (lit "Unknown message type: " ++ String_of_int (DV.byte_at dv 3))),
     Some (after_reads dev 1 rest)).
Proof.
  intros Ho Hq Hwf H6 Hty.
  rewrite (processFR_first_frame defaultStrings dev dv rest
             (mkResponse (Some (lit "Unknown message type: "
                                ++ String_of_int (DV.byte_at dv 3))) []) Ho Hq).
  - reflexivity.
  - unfold processFR_frame.
    destruct (processFR_decode_wf dv Hwf H6) as (data1 & ->).
    unfold processFR_dispatch, JS.ret.
    set (t := DV.byte_at dv 3) in *.
    destruct (Z.eqb_spec t 0); [lia|]. destruct (Z.eqb_spec t 1); [lia|].
    destruct (Z.eqb_spec t 2); [lia|]. destruct (Z.eqb_spec t 3); [lia|].
    destruct (Z.eqb_spec t 4); [lia|]. destruct (Z.eqb_spec t 5); [lia|].
    destruct (Z.eqb_spec t 6); [lia|].
    cbn [orb data error]. do 3 f_equal.
    unfold fmt. cbn. rewrite app_nil_r. reflexivity.
Qed.

Lemma processFR_unknown_type_witness :
  processFR defaultStrings (Some (scripted_device [device_report 9 0 ""]))
  = (Throw (Error (lit "Unknown message type: 9")),
     Some (after_reads (scripted_device [device_report 9 0 ""]) 1 [])).
Proof.
  apply (processFR_unknown_type (scripted_device [device_report 9 0 ""])
           (DV.of_bytes [OTA_FR.id; 0; 255; 9; 0; 0])).
  - reflexivity.
  - reflexivity.
  - unfold DV.wf. vm_compute. repeat split; discriminate.
  - vm_compute. discriminate.
  - vm_compute. discriminate.
Defined.

(** X12.  Whatever was accumulated before, a RESULT report ends the loop
    with its own text (the decoded payload cut at the declared length) as
    the data: the text replaces the accumulated one, a recorded error is
    kept, and the answers after it are left unread. *)
Theorem processFR_result_replaces (STRINGS : OTAStrings) (dev : HIDDevice)
  (i a b lo hi : Z) (payload : list Z) (rest : list (jsstring + DataView))
  (remaining : Z) (resp : Response) :
  remaining <> 0 ->
  let declared := Z.lor lo (Z.shiftl hi 8) in
  let decoded := UTF8.TextDecoder_decode payload in
  let text := slice decoded 0 (Z.min declared (len decoded)) in
  processFR_loop STRINGS
    (inr (DV.of_bytes (i :: a :: b :: 6 :: lo :: hi :: payload)) :: rest)
    dev remaining resp
  = (Return (mkResponse (error resp) text), received dev OTA_FR.id rest).
Proof.
  intros Hrem. cbn zeta. cbn [processFR_loop].
  destruct (Z.eqb_spec remaining 0); [contradiction|].
  rewrite processFR_frame_of_bytes. unfold processFR_dispatch.
  cbn [Z.eqb orb Pos.eqb]. apply processFR_loop_zero.
Qed.

Lemma processFR_result_replaces_witness :
  fst (processFR_loop defaultStrings [device_report 6 4 "true"] idle_device 7
         (mkResponse None (lit "[1,2")))
  = Return (mkResponse None (lit "true")).
Proof.
  assert (Hrem : 7 <> 0) by discriminate.
  exact (f_equal fst
           (processFR_result_replaces defaultStrings idle_device OTA_FR.id 0 255 4 0
              (lit "true") [] 7 (mkResponse None (lit "[1,2")) Hrem)).
Defined.

Lemma processFR_loop_outcome (STRINGS : OTAStrings) (q : list (jsstring + DataView)) :
  forall dev dev' remaining resp,
    fst (processFR_loop STRINGS q dev remaining resp)
    = fst (processFR_loop STRINGS q dev' remaining resp).
Proof.
  induction q as [|answer rest IH]; intros dev dev' remaining resp;
    cbn [processFR_loop]; destruct (remaining =? 0); try reflexivity.
  destruct answer as [err|dv]; [reflexivity|].
  destruct (processFR_frame STRINGS dv resp) as [e|[remaining' resp']];
    [reflexivity|apply IH].
Qed.

Lemma processFR_ack_rsp_frame (STRINGS : OTAStrings) (dv : DataView) (resp : Response) :
  DV.wf dv -> 6 <= byteLength dv -> DV.byte_at dv 3 = 3 ->
  processFR_frame STRINGS dv resp = inr (1, resp).
Proof.
  intros Hwf H6 Hty. unfold processFR_frame.
  destruct (processFR_decode_wf dv Hwf H6) as (data1 & ->).
  rewrite Hty. reflexivity.
Qed.

(** X13.  ACK_RSP reports with a complete header, read first, do not change
    the outcome of the exchange: [processFR] settles as it would on the
    answers that follow them, after one read for each of them and at least
    one more. *)
Theorem processFR_skips_ack_rsp (STRINGS : OTAStrings) (dev : HIDDevice)
  (acks : list DataView) (q : list (jsstring + DataView)) :
  opened dev = true ->
  incoming dev = map inr acks ++ q ->
  Forall (fun dv => DV.wf dv /\ 6 <= byteLength dv /\ DV.byte_at dv 3 = 3) acks ->
  let later := mkDevice (ref dev) (opened dev) (calls dev) (sendFaults dev) q
                        (closeFault dev) in
  fst (processFR STRINGS (Some dev)) = fst (processFR STRINGS (Some later))
  /\ exists dev', snd (processFR STRINGS (Some dev)) = Some dev'
                  /\ (reads dev + length acks + 1 <= reads dev')%nat.
Proof.
  intros Ho Hq Hacks. cbn zeta.
  assert (Hloop : forall d,
             processFR_loop STRINGS (map inr acks ++ q) d 1 (mkResponse None [])
             = processFR_loop STRINGS q (after_reads d (length acks) q) 1
                              (mkResponse None [])).
  { clear Hq. induction Hacks as [|dv acks (Hwf & H6 & Hty) _ IH]; intros d.
    - cbn [map app length].
      destruct q as [|x q']; cbn [processFR_loop Z.eqb]; reflexivity.
    - cbn [map app length processFR_loop Z.eqb].
      rewrite (processFR_ack_rsp_frame STRINGS dv _ Hwf H6 Hty).
      rewrite IH. rewrite after_reads_received. reflexivity. }
  unfold processFR. cbn [opened]. rewrite Ho. cbn [negb incoming].
  rewrite Hq, Hloop.
  split.
  - rewrite (surjective_pairing (processFR_loop STRINGS q (after_reads dev _ q) _ _)).
    rewrite (surjective_pairing (processFR_loop STRINGS q (mkDevice _ _ _ _ _ _) _ _)).
    rewrite (processFR_loop_outcome STRINGS q (after_reads dev (length acks) q)
               (mkDevice (ref dev) true (calls dev) (sendFaults dev) q (closeFault dev))).
    destruct (fst (processFR_loop STRINGS q
                     (mkDevice (ref dev) true (calls dev) (sendFaults dev) q
                               (closeFault dev)) 1 (mkResponse None [])));
      reflexivity.
  - destruct (processFR_loop_reads STRINGS q (after_reads dev (length acks) q) 1
                (mkResponse None []) eq_refl) as (n & Hn & H1).
    specialize (H1 ltac:(discriminate)).
    destruct (processFR_loop STRINGS q (after_reads dev (length acks) q) 1
                (mkResponse None [])) as [[resp|e|] d'] eqn:Hl; cbn [snd] in *;
      subst d'; eexists; (split; [reflexivity|]); rewrite !reads_after_reads; lia.
Qed.

Lemma processFR_skips_ack_rsp_witness :
  fst (processFR defaultStrings
         (Some (scripted_device [device_report 3 0 ""; device_report 3 0 "";
                                 device_report 6 4 "true"])))
  = fst (processFR defaultStrings (Some (scripted_device [device_report 6 4 "true"]))).
Proof.
  assert (Hack : DV.wf (DV.of_bytes [OTA_FR.id; 0; 255; 3; 0; 0])
                 /\ 6 <= byteLength (DV.of_bytes [OTA_FR.id; 0; 255; 3; 0; 0])
                 /\ DV.byte_at (DV.of_bytes [OTA_FR.id; 0; 255; 3; 0; 0]) 3 = 3).
  { unfold DV.wf. vm_compute. repeat split; discriminate. }
  exact (proj1 (processFR_skips_ack_rsp defaultStrings
                  (scripted_device [device_report 3 0 ""; device_report 3 0 "";
                                    device_report 6 4 "true"])
                  [DV.of_bytes [OTA_FR.id; 0; 255; 3; 0; 0];
                   DV.of_bytes [OTA_FR.id; 0; 255; 3; 0; 0]]
                  [device_report 6 4 "true"] eq_refl eq_refl
                  (Forall_cons _ Hack (Forall_cons _ Hack (Forall_nil _))))).
Defined.

(** X14.  A FIRST or MID report appends at most as many characters as it
    declares, namely the decoded payload cut at the declared length, and
    sets [remaining] to the declared length less the characters appended:
    the loop reads again exactly when the report carried fewer characters
    than it declared. *)
Theorem processFR_data_frame (STRINGS : OTAStrings) (i a b ty lo hi : Z)
  (payload : list Z) (resp : Response) :
  ty = 0 \/ ty = 1 -> 0 <= lo <= 255 -> 0 <= hi <= 255 ->
  let declared := lo + 256 * hi in
  let decoded := UTF8.TextDecoder_decode payload in
  let text := firstn (Z.to_nat declared) decoded in
  processFR_frame STRINGS (DV.of_bytes (i :: a :: b :: ty :: lo :: hi :: payload)) resp
  = inr (declared - len text, mkResponse (error resp) (data resp ++ text))
  /\ 0 <= declared - len text
  /\ (declared - len text = 0 <-> declared <= len decoded).
Proof.
  intros Hty Hlo Hhi. cbn zeta.
  assert (Hd : Z.lor lo (Z.shiftl hi 8) = lo + 256 * hi).
  { rewrite Z.shiftl_mul_pow2 by lia. change (2 ^ 8) with 256.
    rewrite <- Z.lxor_lor, <- Z.add_nocarry_lxor; try lia;
      apply Z.bits_inj'; intros n Hn; rewrite Z.land_spec, Z.bits_0;
      destruct (Z.lt_ge_cases n 8) as [Hlt|Hge];
      try (change 256 with (2 ^ 8); rewrite Z.mul_pow2_bits_low by lia;
           apply andb_false_r);
      (replace (Z.testbit lo n) with false; [reflexivity|];
       symmetry; apply Z.bits_above_log2; [lia|];
       destruct (Z.eq_dec lo 0) as [->|Hne]; [cbn; lia|];
       apply Z.log2_lt_pow2; [lia|];
       apply Z.lt_le_trans with (2 ^ 8); [cbn; lia|apply Z.pow_le_mono_r; lia]). }
  rewrite processFR_frame_of_bytes, Hd.
  set (declared := lo + 256 * hi).
  set (decoded := UTF8.TextDecoder_decode payload).
  assert (Hdec : 0 <= declared) by (unfold declared; lia).
  pose proof (len_nonneg decoded) as Hlen.
  rewrite slice_prefix by lia.
  assert (Htext : firstn (Z.to_nat (Z.min declared (len decoded))) decoded
                  = firstn (Z.to_nat declared) decoded).
  { destruct (Z.le_ge_cases declared (len decoded)).
    - rewrite Z.min_l by lia. reflexivity.
    - rewrite Z.min_r by lia.
      rewrite !firstn_all2 by (unfold len in *; lia). reflexivity. }
  rewrite Htext.
  assert (Hl : len (firstn (Z.to_nat declared) decoded) = Z.min declared (len decoded)).
  { unfold len in *. rewrite length_firstn. lia. }
  split; [|split].
  - unfold processFR_dispatch. destruct Hty as [-> | ->]; cbn [Z.eqb orb Pos.eqb];
      rewrite Z.max_r by lia; reflexivity.
  - lia.
  - lia.
Qed.

Lemma processFR_data_frame_witness :
  processFR_frame defaultStrings
    (DV.of_bytes (OTA_FR.id :: 0 :: 255 :: 0 :: 9 :: 0 :: lit "[1,2"))
    (mkResponse None [])
  = inr (5, mkResponse None (lit "[1,2")).
Proof.
  refine (proj1 (processFR_data_frame defaultStrings OTA_FR.id 0 255 0 9 0 (lit "[1,2")
                   (mkResponse None []) (or_introl eq_refl) _ _)); lia.
Defined.

(** X15.  A report that comes in a view of its own is decoded without a
    throw exactly when it has at least 6 bytes; with exactly 6 bytes its
    text is empty. *)
Theorem processFR_decode_needs_six_bytes (bytes : list Z) :
  ((exists r, processFR_decode (DV.of_bytes bytes) = inr r) <-> 6 <= len bytes)
  /\ (len bytes = 6 ->
      exists ty declared, processFR_decode (DV.of_bytes bytes) = inr (ty, declared, [])).
Proof.
  split; [split|].
  - intros [r Hr].
    destruct (Z.lt_ge_cases (len bytes) 6) as [Hlt|Hge]; [|exact Hge].
    rewrite (processFR_decode_short (DV.of_bytes bytes) Hlt) in Hr. discriminate.
  - intros H6.
    destruct (processFR_decode_wf (DV.of_bytes bytes)) as (data1 & ->).
    + unfold DV.wf, DV.of_bytes. cbn [byteOffset byteLength buffer].
      pose proof (len_nonneg bytes). lia.
    + exact H6.
    + eexists. reflexivity.
  - intros H6.
    destruct bytes as [|i [|a [|b [|ty [|lo [|hi [|x rest]]]]]]];
      try (unfold len in H6; cbn [length] in H6; lia).
    rewrite processFR_decode_of_bytes.
    change (UTF8.TextDecoder_decode []) with (@nil Z).
    unfold slice. rewrite skipn_nil, firstn_nil. eexists _, _. reflexivity.
Qed.

Lemma processFR_decode_needs_six_bytes_witness :
  exists r, processFR_decode (DV.of_bytes [OTA_FR.id; 0; 255; 2; 0; 0]) = inr r.
Proof.
  apply (proj1 (processFR_decode_needs_six_bytes [OTA_FR.id; 0; 255; 2; 0; 0])).
  vm_compute. discriminate.
Defined.

(* ------------------------------------------------------------------ *)
(** * fmt and configureOtaLocale *)

Lemma fmt_scan_plain (vars : list (jsstring * jsstring)) (s rest : jsstring) :
  Forall (fun c => c <> 123) s ->
  fmt_scan vars None (s ++ rest) = s ++ fmt_scan vars None rest.
Proof.
  induction 1 as [|c s Hc Hs IH]; cbn [app fmt_scan]; [reflexivity|].
  destruct (Z.eqb_spec c 123); [contradiction|]. rewrite IH. reflexivity.
Qed.




(** X17.  [fmt] returns a template without an opening brace as it is,
    whatever the values. *)
Theorem fmt_without_brace (vars : list (jsstring * jsstring)) (template : jsstring) :
  Forall (fun c => c <> 123) template -> fmt template vars = template.
Proof.
  intros H. unfold fmt.
  rewrite <- (app_nil_r template) at 1.
  rewrite fmt_scan_plain by assumption. cbn [fmt_scan]. apply app_nil_r.
Qed.

Lemma fmt_without_brace_witness :
  fmt (lit "Device not opened") [(lit "error", lit "x")] = lit "Device not opened".
Proof.
  apply fmt_without_brace. repeat constructor; discriminate.
Defined.


(** X18.  Two calls of [configureOtaLocale] amount to one call with the
    keys of both objects, a key of the second call hiding the same key of
    the first; a key that neither call gives keeps its text, so a call with
    no key changes nothing. *)
Theorem configureOtaLocale_twice (STRINGS : OTAStrings) (o1 o2 : OTAOverrides) :
  configureOtaLocale (configureOtaLocale STRINGS o1) o2
  = configureOtaLocale STRINGS (merge_overrides o1 o2)
  /\ configureOtaLocale STRINGS no_overrides = STRINGS.
Proof.
  split.
  - destruct o1 as [a1 b1 c1 d1 e1 f1 g1 h1 i1 j1 k1].
    destruct o2 as [[a2|] [b2|] [c2|] [d2|] [e2|] [f2|] [g2|] [h2|] [i2|] [j2|] [k2|]];
      reflexivity.
  - destruct STRINGS; reflexivity.
Qed.

(* ------------------------------------------------------------------ *)
(** * Closing, opening and the heartbeat *)

(** [otaSend] leaves a device, with the reference and the [opened] flag
    it had. *)
Lemma otaSend_device (STRINGS : OTAStrings) (dev : HIDDevice) (data : jsstring) :
  exists dev', snd (otaSend STRINGS (Some dev) data) = Some dev'
               /\ opened dev' = opened dev /\ ref dev' = ref dev.
Proof.
  unfold otaSend.
  destruct (truthy_opt _); [cbn [snd]; eauto|].
  destruct (otaSend_transmit_spec STRINGS dev data) as (r & j & Heq & _).
  rewrite Heq. set (dev1 := after_sends dev _).
  assert (H1 : opened dev1 = opened dev /\ ref dev1 = ref dev) by (split; reflexivity).
  destruct r as [[]|e|]; cbn [snd]; [|eauto|eauto].
  unfold processFR. destruct (negb (opened dev1)); [cbn [snd]; eauto|].
  destruct (processFR_loop_reads STRINGS (incoming dev1) dev1 1 (mkResponse None [])
              eq_refl) as (n & Hn & _).
  destruct (processFR_loop STRINGS (incoming dev1) dev1 1 (mkResponse None []))
    as [[resp|e|] d'] eqn:Hl; cbn [snd] in *; subst d'; eexists;
    (split; [reflexivity|]); exact H1.
Qed.

(** X19.  After [otaClose] on an opened device whose [close] succeeds, the
    session is detached and the device is closed, with that one [close]
    call made; from there [otaSend] fails with the [deviceNotOpened] message
    (when it is not empty) without any call to the device, and a second
    [otaClose] resolves without calling [close] again. *)
Theorem otaClose_then_send (STRINGS : OTAStrings) (g : OtaGlobals) (d : HIDDevice) :
  opened d = true -> closeFault d = None ->
  truthy (deviceNotOpened STRINGS) = true ->
  exists d',
    otaClose STRINGS g (Some d) = (Return tt, mkGlobals (hbTimeout g) None, Some d')
    /\ opened d' = false
    /\ calls d' = CloseDevice :: calls d
    /\ (forall text,
          otaSend STRINGS (Some d') text
          = (Throw (Error (deviceNotOpened STRINGS)), Some d'))
    /\ (forall g',
          otaClose STRINGS g' (Some d')
          = (Return tt, mkGlobals (hbTimeout g') None, Some d')).
Proof.
  intros Ho Hc Hm. unfold otaClose at 1, close. rewrite Ho, Hc.
  eexists. split; [reflexivity|]. split; [reflexivity|]. split; [reflexivity|].
  split.
  - intros text. unfold otaSend. cbn [opened negb truthy_opt]. rewrite Hm. reflexivity.
  - intros g'. reflexivity.
Qed.

Lemma otaClose_then_send_witness :
  exists d',
    otaClose defaultStrings (mkGlobals 9000 (Some 1)) (Some idle_device)
    = (Return tt, mkGlobals 9000 None, Some d')
    /\ otaSend defaultStrings (Some d') (lit "hb")
       = (Throw (Error (lit "Device not opened")), Some d').
Proof.
  destruct (otaClose_then_send defaultStrings (mkGlobals 9000 (Some 1)) idle_device
              eq_refl eq_refl eq_refl) as (d' & Hclose & _ & _ & Hsend & _).
  exists d'. split; [exact Hclose|apply Hsend].
Defined.

(** X20.  [otaOpen] on a device attaches the session and the device
    information exactly when it succeeds: when it returns a value, [ota_g]
    refers to the device, the value is stored as its [info] and the device
    is opened; when it fails or never settles, [ota_g] and [info] are as
    before. *)
Theorem otaOpen_attaches_on_success (STRINGS : OTAStrings) (engine : Exn -> jsstring)
  (openFault : option jsstring) (g : OtaGlobals) (info : option JSON.value)
  (d : HIDDevice) (r : Completion JSON.value) (st : OpenState) :
  otaOpen STRINGS engine openFault g info (Some d) = (r, st) ->
  match r with
  | Return value =>
      os_globals st = mkGlobals (hbTimeout g) (Some (ref d))
      /\ os_info st = Some value
      /\ exists d', os_device st = Some d' /\ opened d' = true /\ ref d' = ref d
  | _ => os_globals st = g /\ os_info st = info
  end.
Proof.
  unfold otaOpen. intros H.
  destruct (negb (opened d)) eqn:Hneg.
  - unfold open in H. destruct openFault as [e|].
    + inversion H; subst. cbn. auto.
    + destruct (otaSend_device STRINGS
                  (mkDevice (ref d) true (calls d) (sendFaults d) (incoming d)
                            (closeFault d)) (lit "init")) as (d' & Hd & Ho' & Hr').
      destruct (otaSend STRINGS _ (lit "init")) as [[v|e|] d2]; cbn [snd] in Hd;
        subst d2; inversion H; subst; cbn; auto.
      split; [reflexivity|]. split; [reflexivity|]. exists d'. auto.
  - apply negb_false_iff in Hneg.
    destruct (otaSend_device STRINGS d (lit "init")) as (d' & Hd & Ho' & Hr').
    destruct (otaSend STRINGS (Some d) (lit "init")) as [[v|e|] d2]; cbn [snd] in Hd;
      subst d2; inversion H; subst; cbn; auto.
    split; [reflexivity|]. split; [reflexivity|]. exists d'.
    rewrite Ho', Hneg. auto.
Qed.

Lemma otaOpen_attaches_on_success_witness :
  os_globals (snd (otaOpen defaultStrings (fun _ => []) None ota_g None
                     (Some (mkDevice 7 false [] [] [device_report 6 4 "true"] None))))
  = mkGlobals 9000 (Some 7).
Proof.
  assert (H : otaOpen defaultStrings (fun _ => []) None ota_g None
                (Some (mkDevice 7 false [] [] [device_report 6 4 "true"] None))
              = (Return (JSON.JBool true),
                 snd (otaOpen defaultStrings (fun _ => []) None ota_g None
                        (Some (mkDevice 7 false [] [] [device_report 6 4 "true"] None)))))
    by (vm_compute; reflexivity).
  exact (proj1 (otaOpen_attaches_on_success defaultStrings (fun _ => []) None ota_g None
                  _ _ _ H)).
Defined.

(** X21.  With the default strings, when the device answers the init
    exchange of [otaOpen] with a NACK report whose text is not empty,
    [otaOpen] on an opened device that accepts the write fails with "Error
    sending init: Error: " followed by that text, and leaves [ota_g] and
    [info] as they were. *)
Theorem otaOpen_nack (engine : Exn -> jsstring) (openFault : option jsstring)
  (g : OtaGlobals) (info : option JSON.value) (d : HIDDevice)
  (i a b lo hi : Z) (payload : list Z) (rest : list (jsstring + DataView)) :
  opened d = true -> sendFaults d = [] ->
  incoming d = inr (DV.of_bytes (i :: a :: b :: 4 :: lo :: hi :: payload)) :: rest ->
  let declared := Z.lor lo (Z.shiftl hi 8) in
  let decoded := UTF8.TextDecoder_decode payload in
  let text := slice decoded 0 (Z.min declared (len decoded)) in
  truthy text = true ->
  exists d',
    otaOpen defaultStrings engine openFault g info (Some d)
    = (Throw (Error (lit "Error sending init: Error: " ++ text)),
       mkOpenState g (Some d') info).
Proof.
  intros Ho Hf Hq. cbn zeta. intros Ht.
  unfold otaOpen. rewrite Ho. cbn [negb].
  rewrite (otaSend_exact defaultStrings d (lit "init") Ho eq_refl).
  rewrite Hf.
  set (bytes := UTF8.TextEncoder_encode (lit "init")).
  assert (Hw : write_fault [] (chunk_count bytes) = None) by reflexivity.
  rewrite Hw.
  set (d1 := after_sends d _).
  rewrite (processFR_nack_first defaultStrings d1 i a b lo hi payload rest Ho Hq).
  rewrite Ht. eexists. f_equal. f_equal. f_equal.
  unfold String_of_error. cbn [error_message error_name].
  destruct (slice _ 0 _) as [|c text']; [discriminate|].
  unfold fmt. cbn. rewrite app_nil_r. reflexivity.
Qed.

Lemma otaOpen_nack_witness :
  fst (otaOpen defaultStrings (fun _ => []) None ota_g None
         (Some (scripted_device [device_report 4 8 "bad path"])))
  = Throw (Error (lit "Error sending init: Error: bad path")).
Proof.
  destruct (otaOpen_nack (fun _ => []) None ota_g None
              (scripted_device [device_report 4 8 "bad path"])
              OTA_FR.id 0 255 8 0 (lit "bad path") [] eq_refl eq_refl eq_refl eq_refl)
    as (d' & H).
  rewrite H. reflexivity.
Defined.

(** X22.  [sendHB] never rejects, whatever the device does; on a device
    that is not opened (with a [deviceNotOpened] message that is not empty)
    it resolves without any call to the device. *)
Theorem sendHB_never_rejects (STRINGS : OTAStrings) (dev : HIDDevice) :
  (forall e, fst (sendHB STRINGS dev) <> Throw e)
  /\ (opened dev = false -> truthy (deviceNotOpened STRINGS) = true ->
      sendHB STRINGS dev = (Return tt, Some dev)).
Proof.
  split.
  - intros e. unfold sendHB.
    destruct (otaSend STRINGS (Some dev) (lit "hb")) as [[v|e'|] d];
      cbn [fst]; discriminate.
  - intros Ho Hm. unfold sendHB, otaSend. rewrite Ho. cbn [negb truthy_opt].
    rewrite Hm. reflexivity.
Qed.

Lemma sendHB_never_rejects_witness :
  sendHB defaultStrings closed_device = (Return tt, Some closed_device).
Proof.
  exact (proj2 (sendHB_never_rejects defaultStrings closed_device) eq_refl eq_refl).
Defined.

(** X23.  With the default strings, when every write is accepted and the
    first read is rejected with a reason that prints as [err], [otaSend]
    fails with "Error receiving feature report: " followed by [err], after
    all its reports were handed over and that one read was made. *)
Theorem otaSend_read_rejected (dev : HIDDevice) (data err : jsstring)
  (rest : list (jsstring + DataView)) :
  opened dev = true -> truthy data = true -> sendFaults dev = [] ->
  incoming dev = inl err :: rest ->
  let bytes := UTF8.TextEncoder_encode data in
  otaSend defaultStrings (Some dev) data
  = (Throw (Error (lit "Error receiving feature report: " ++ err)),
     Some (after_reads (after_sends dev (expected_reports bytes 0 (chunk_count bytes)))
                       1 rest)).
Proof.
  intros Ho Ht Hf Hq. cbn zeta.
  rewrite (otaSend_exact defaultStrings dev data Ho Ht).
  rewrite Hf.
  set (n := chunk_count (UTF8.TextEncoder_encode data)).
  assert (Hw : write_fault [] n = None) by (destruct n; reflexivity).
  rewrite Hw, (handed_no_fault [] n Hw).
  unfold processFR, after_sends. cbn [opened incoming]. rewrite Ho, Hq.
  cbn [negb processFR_loop Z.eqb]. unfold fmt. cbn. rewrite app_nil_r. reflexivity.
Qed.

Lemma otaSend_read_rejected_witness :
  fst (otaSend defaultStrings
         (Some (mkDevice 1 true [] [] [inl (lit "NotAllowedError: Failed to read")] None))
         (lit "version"))
  = Throw (Error (lit "Error receiving feature report: NotAllowedError: Failed to read")).
Proof.
  rewrite (otaSend_read_rejected
             (mkDevice 1 true [] [] [inl (lit "NotAllowedError: Failed to read")] None)
             (lit "version") (lit "NotAllowedError: Failed to read") []
             eq_refl eq_refl eq_refl eq_refl).
  reflexivity.
Defined.
